(** * CES exhibitor crawler: a shallow embedding of [ai_studio_code.py]

    The development follows the source file top-down:
    - Python strings and the string methods the crawler calls
      ([str.replace], [str.strip], [str.join]);
    - decoded JSON values, with the dynamic operations applied to them
      ([dict.get], subscripting, truthiness, iteration, [len], [>=]);
    - [fetch_exhibitors], the pagination loop, run against a server given
      as a state machine;
    - [strip_randomstring], [hit_to_row], [write_csv] and [main].

    Exceptions are values of a result type; the pagination loop, which
    the source writes as [while True], takes a bound on the number of
    iterations and reports when the bound is hit. *)

From Stdlib Require Import ZArith NArith Lia Ascii String SpecFloat.
From stdpp Require Import base decidable option numbers list gmap.

Local Open Scope Z_scope.

(** ** Python strings *)

(** A [str] is a sequence of Unicode code points. *)
Definition char := N.
Definition pystr := list char.

(** ASCII literals of the source. *)
Definition py (s : string) : pystr :=
  List.map N_of_ascii (list_ascii_of_string s).

(** [str.isspace] on one code point: the characters [str.strip] removes
    when called without argument. *)
Definition isspace (c : char) : bool :=
  ((9 <=? c) && (c <=? 13) || (28 <=? c) && (c <=? 32)
   || (c =? 133) || (c =? 160) || (c =? 5760)
   || (8192 <=? c) && (c <=? 8202)
   || (c =? 8232) || (c =? 8233) || (c =? 8239) || (c =? 8287)
   || (c =? 12288))%N.

Fixpoint lstrip (s : pystr) : pystr :=
  match s with
  | [] => []
  | c :: s' => if isspace c then lstrip s' else s
  end.

Definition rstrip (s : pystr) : pystr := reverse (lstrip (reverse s)).

(** [value.strip()] *)
Definition strip (s : pystr) : pystr := rstrip (lstrip s).

(** [s.startswith(p)] *)
Fixpoint starts_with (p s : pystr) : bool :=
  match p, s with
  | [], _ => true
  | _ :: _, [] => false
  | a :: p', b :: s' => (a =? b)%N && starts_with p' s'
  end.

(** [p in s] *)
Fixpoint contains (p s : pystr) : bool :=
  starts_with p s ||
  match s with
  | [] => false
  | _ :: s' => contains p s'
  end.

(** The scan of [str.replace] for a non-empty [old]: left to right, each
    match is replaced and the scan resumes after it; [skip] counts the
    characters of the current match still to pass over. *)
Fixpoint replace_from (old new : pystr) (skip : nat) (s : pystr) : pystr :=
  match s with
  | [] => []
  | c :: s' =>
      match skip with
      | S k => replace_from old new k s'
      | O =>
          if starts_with old s
          then new ++ replace_from old new (length old - 1) s'
          else c :: replace_from old new 0 s'
      end
  end.

(** [s.replace(old, new)]; an empty [old] matches before every character
    and at the end. *)
Definition replace (old new s : pystr) : pystr :=
  match old with
  | [] => new ++ concat (List.map (fun c => c :: new) s)
  | _ :: _ => replace_from old new 0 s
  end.

(** [sep.join(parts)] on strings. *)
Fixpoint join (sep : pystr) (parts : list pystr) : pystr :=
  match parts with
  | [] => []
  | [x] => x
  | x :: rest => x ++ sep ++ join sep rest
  end.

Definition randomstring : pystr := Eval vm_compute in py "randomstring".

(** [strip_randomstring]: [value.replace("randomstring", "").strip()] *)
Definition strip_randomstring (value : pystr) : pystr :=
  strip (replace randomstring [] value).

(** Properties of strings used in the statements. *)

(** [p] occurs in [s] as a substring. *)
Definition occurs (p s : pystr) : Prop := ∃ a b, s = a ++ p ++ b.

(** Neither the first nor the last character of [s] is whitespace. *)
Definition trimmed (s : pystr) : Prop :=
  (∀ c, head s = Some c → isspace c = false) ∧
  (∀ c, last s = Some c → isspace c = false).

(** A word no proper non-empty prefix of which is also a suffix. *)
Definition unbordered (w : pystr) : Prop :=
  ∀ k, (0 < k < length w)%nat → take k w ≠ drop (length w - k) w.

(** ** Decoded JSON values

    What [resp.json()] returns. A [dict] keeps its insertion order, which
    iteration exposes, so it is a list of bindings; lookup takes the first
    binding of a key (a decoded object has one binding per key). *)
#[local] Set Warnings "-register-all".
Inductive value : Type :=
| JNull
| JBool (b : bool)
| JInt (n : Z)
| JFloat (f : spec_float)
| JStr (s : pystr)
| JList (l : list value)
| JDict (kvs : list (pystr * value)).

(** ** Exceptions and results *)
Inductive exn : Type :=
| AttributeError
| TypeError
| KeyError (key : pystr)
| ValueError
| RuntimeError (payload : value)   (* [f"Search failed: {payload}"] *)
| RequestException                 (* [session.get] got no response *)
| HTTPError (status : Z)           (* [resp.raise_for_status()] *)
| JSONDecodeError                  (* [resp.json()] *)
| EOFError
| OSError
| SystemExit (msg : pystr).

Inductive res (A : Type) : Type :=
| Ok (a : A)
| Raise (e : exn).
Arguments Ok {A} a.
Arguments Raise {A} e.

#[global] Instance res_ret : MRet res := λ A a, Ok a.
#[global] Instance res_bind : MBind res :=
  λ A B f m, match m with Ok a => f a | Raise e => Raise e end.

(** Run [f] over a list, left to right, stopping at the first exception. *)
Fixpoint traverse {A B} (f : A → res B) (l : list A) : res (list B) :=
  match l with
  | [] => Ok []
  | a :: l' => b ← f a; bs ← traverse f l'; Ok (b :: bs)
  end.

(** ** Dynamic operations on values *)

Fixpoint assoc (k : pystr) (kvs : list (pystr * value)) : option value :=
  match kvs with
  | [] => None
  | (k', v) :: rest => if bool_decide (k = k') then Some v else assoc k rest
  end.

(** [v.get(k, dflt)]: only a [dict] has the method. *)
Definition py_get (v : value) (k : pystr) (dflt : value) : res value :=
  match v with
  | JDict kvs => Ok (default dflt (assoc k kvs))
  | _ => Raise AttributeError
  end.

(** [v[k]] with a string key. *)
Definition py_getitem (v : value) (k : pystr) : res value :=
  match v with
  | JDict kvs =>
      match assoc k kvs with
      | Some x => Ok x
      | None => Raise (KeyError k)
      end
  | _ => Raise TypeError
  end.

(** Truth value, as tested by [not], [or] and [if]. *)
Definition truthy (v : value) : bool :=
  match v with
  | JNull => false
  | JBool b => b
  | JInt n => negb (n =? 0)
  | JFloat (S754_zero _) => false
  | JFloat _ => true
  | JStr s => match s with [] => false | _ => true end
  | JList l => match l with [] => false | _ => true end
  | JDict kvs => match kvs with [] => false | _ => true end
  end.

(** [a or b] *)
Definition py_or (a b : value) : value := if truthy a then a else b.

(** The elements iteration yields: a string yields its characters, a
    [dict] its keys. *)
Definition py_iter (v : value) : res (list value) :=
  match v with
  | JList l => Ok l
  | JStr s => Ok (List.map (λ c, JStr [c]) s)
  | JDict kvs => Ok (List.map (λ kv, JStr (fst kv)) kvs)
  | _ => Raise TypeError
  end.

(** [len(v)] *)
Definition py_len (v : value) : res Z :=
  match v with
  | JList l => Ok (Z.of_nat (length l))
  | JStr s => Ok (Z.of_nat (length s))
  | JDict kvs => Ok (Z.of_nat (length kvs))
  | _ => Raise TypeError
  end.

(** [n >= f] for an [int] and a [float]: Python compares the exact values. *)
Definition int_ge_float (n : Z) (f : spec_float) : bool :=
  match f with
  | S754_zero _ => 0 <=? n
  | S754_infinity negative => negative
  | S754_nan => false
  | S754_finite negative m e =>
      let v := if negative then Z.neg m else Z.pos m in
      if 0 <=? e then v * 2 ^ e <=? n else v <=? n * 2 ^ (- e)
  end.

(** [n >= v] for an [int] on the left. *)
Definition py_ge (n : Z) (v : value) : res bool :=
  match v with
  | JInt m => Ok (m <=? n)
  | JBool b => Ok ((if b then 1 else 0) <=? n)
  | JFloat f => Ok (int_ge_float n f)
  | _ => Raise TypeError
  end.

(** [sep.join(v)]: [v] must be iterable and yield strings only. *)
Definition py_join (sep : pystr) (v : value) : res pystr :=
  items ← py_iter v;
  parts ← traverse (λ x, match x with JStr s => Ok s | _ => Raise TypeError end)
            items;
  Ok (join sep parts).

(** ** The search endpoint *)

(** The query parameters that vary ([action] is always ["search"]). *)
Record request : Type := Request {
  rq_search : pystr;
  rq_searchtype : pystr;
  rq_searchsize : Z;
  rq_start : Z;
  rq_show : pystr;
}.

(** What one [session.get] followed by [raise_for_status] and [json]
    comes to. *)
Inductive http_outcome : Type :=
| NoResponse
| BadStatus (status : Z)
| BadBody
| Json (payload : value).

(** [resp = session.get(...); resp.raise_for_status(); resp.json()] *)
Definition decode (r : http_outcome) : res value :=
  match r with
  | NoResponse => Raise RequestException
  | BadStatus status => Raise (HTTPError status)
  | BadBody => Raise JSONDecodeError
  | Json payload => Ok payload
  end.

(** How a call that may loop ends. *)
Inductive outcome (A : Type) : Type :=
| Returned (a : A)
| Raised (e : exn)
| OutOfFuel.
Arguments Returned {A} a.
Arguments Raised {A} e.
Arguments OutOfFuel {A}.

(** The local variables of [fetch_exhibitors] at the end of one iteration
    of its loop, and whether the [break] is taken. *)
Record page_state : Type := PageState {
  pg_hits : list value;
  pg_batch : value;
  pg_total : value;
  pg_start : Z;
  pg_break : bool;
}.

(** [payload["DATA"]["results"][show]] *)
Definition result_section (show : pystr) (payload : value) : res value :=
  data ← py_getitem payload (py "DATA");
  results ← py_getitem data (py "results");
  py_getitem results show.

(** The body of the loop of [fetch_exhibitors] from [payload = resp.json()]
    on, entered with the locals [hits] and [start]. *)
Definition process_page (show : pystr) (payload : value)
    (hits : list value) (start : Z) : res page_state :=
  success ← py_get payload (py "SUCCESS") JNull;
  if negb (truthy success) then Raise (RuntimeError payload) else
  result ← result_section show payload;
  batch ← py_get result (py "hit") (JList []);
  items ← py_iter batch;                                (* hits.extend(batch) *)
  let hits := hits ++ items in
  total ← py_get result (py "found") (JInt (Z.of_nat (length hits)));
  n ← py_len batch;
  let start := start + n in
  reached ← py_ge start total;
  Ok (PageState hits batch total start (reached || negb (truthy batch))).

Section Server.
(** The remote site: a state machine answering the priming request of
    [bootstrap_session] and the search requests. *)
Context {St : Type}.
Variable home : St → bool * St.
Variable search : St → request → http_outcome * St.

(** [bootstrap_session]: the priming [session.get]; its response is not
    inspected, it raises only when there is none. *)
Definition bootstrap_session (σ : St) : res unit * St :=
  let '(answered, σ') := home σ in
  ((if answered then Ok () else Raise RequestException), σ').

(** The [while True] loop of [fetch_exhibitors], at most [fuel]
    iterations. Returns how the loop ended, the server state and the
    requests issued with their responses, in order. *)
Fixpoint fetch_loop (fuel : nat) (keyword searchtype show : pystr)
    (page_size : Z) (σ : St) (hits : list value) (start : Z)
    : outcome (list value) * St * list (request * http_outcome) :=
  match fuel with
  | O => (OutOfFuel, σ, [])
  | S fuel' =>
      let rq := Request keyword searchtype page_size start show in
      let '(resp, σ') := search σ rq in
      match payload ← decode resp; process_page show payload hits start with
      | Raise e => (Raised e, σ', [(rq, resp)])
      | Ok pg =>
          if pg_break pg then (Returned (pg_hits pg), σ', [(rq, resp)])
          else
            let '(out, σ'', trace) :=
              fetch_loop fuel' keyword searchtype show page_size σ'
                (pg_hits pg) (pg_start pg) in
            (out, σ'', (rq, resp) :: trace)
      end
  end.

(** [fetch_exhibitors(session, keyword, page_size, searchtype, show)] *)
Definition fetch_exhibitors (fuel : nat) (σ : St) (keyword : pystr)
    (page_size : Z) (searchtype show : pystr) :=
  fetch_loop fuel keyword searchtype show page_size σ [] 0.
End Server.

Definition DEFAULT_PAGE_SIZE : Z := 200.

(** ** Flattening *)

(** [hit_to_row]; the row is the [dict] literal, keys in insertion order. *)
Definition hit_to_row (hit : value) : res (list (pystr * value)) :=
  fields ← py_get hit (py "fields") (JDict []);
  b ← py_get fields (py "boothsdisplay_la") JNull;
  let booths_raw := py_or b (JList []) in
  entries ← py_iter booths_raw;
  cleaned ← traverse
              (λ b, match b with
                    | JStr s => Ok (strip_randomstring s)
                    | _ => Raise AttributeError
                    end)
              (List.filter truthy entries);
  let booths := join (py "; ") cleaned in
  h ← py_get fields (py "hallid_la") JNull;
  halls ← py_join (py "; ") (py_or h (JList []));
  t1 ← py_get fields (py "exhtags_la") JNull;
  t2 ← py_get fields (py "tags") JNull;
  let tags := py_or t1 (py_or t2 (JList [])) in
  exhibitor_id ← py_get fields (py "exhid_l") (JStr []);
  name ← py_get fields (py "exhname_t") (JStr []);
  description ← py_get fields (py "exhdesc_t") (JStr []);
  seeking_funding ← py_get fields (py "seekfunding_t") (JStr []);
  funding_amount ← py_get fields (py "fundingamount_t") (JStr []);
  investment_stage ← py_get fields (py "investmentstage_l") (JStr []);
  revenue ← py_get fields (py "revenue_t") (JStr []);
  logo_file ← py_get fields (py "exhlogo_t") (JStr []);
  featured ← py_get fields (py "exhfeatured_t") (JStr []);
  tags_joined ← py_join (py "; ") tags;
  Ok [ (py "exhibitor_id", exhibitor_id);
       (py "name", name);
       (py "booths", JStr booths);
       (py "hall", JStr halls);
       (py "description", description);
       (py "seeking_funding", seeking_funding);
       (py "funding_amount", funding_amount);
       (py "investment_stage", investment_stage);
       (py "revenue", revenue);
       (py "logo_file", logo_file);
       (py "featured", featured);
       (py "tags", JStr tags_joined) ].

(** ** Writing the CSV file *)

Definition fieldnames : list pystr :=
  [ py "exhibitor_id"; py "name"; py "booths"; py "hall"; py "description";
    py "seeking_funding"; py "funding_amount"; py "investment_stage";
    py "revenue"; py "logo_file"; py "featured"; py "tags" ].

(** A file written through [csv.DictWriter]: the header row and the data
    rows, one cell per field name. Cells are kept as values; their
    rendering as text and the quoting are the [csv] module's. *)
Record csv_file : Type := CsvFile {
  csv_header : list pystr;
  csv_rows : list (list value);
}.

(** [DictWriter._dict_to_list]: a key outside [fieldnames] is refused, a
    missing one is written as the empty string. *)
Definition dict_to_list (row : list (pystr * value)) : res (list value) :=
  if forallb (λ kv, bool_decide (fst kv ∈ fieldnames)) row
  then Ok (List.map (λ k, default (JStr []) (assoc k row)) fieldnames)
  else Raise ValueError.

(** [writer.writerows(rows)]: the rows before the first refused one are
    written. *)
Fixpoint writerows (rows : list (list (pystr * value)))
    : res unit * list (list value) :=
  match rows with
  | [] => (Ok (), [])
  | row :: rest =>
      match dict_to_list row with
      | Raise e => (Raise e, [])
      | Ok cells => let '(r, written) := writerows rest in (r, cells :: written)
      end
  end.

Section Files.
(** Whether [open(path, "w")] succeeds. *)
Variable writable : pystr → bool.

(** [write_csv(rows, output_path)] on a file system mapping paths to
    file contents. *)
Definition write_csv (rows : list (list (pystr * value)))
    (output_path : pystr) (files : gmap pystr csv_file)
    : res unit * gmap pystr csv_file :=
  if writable output_path then
    let '(r, written) := writerows rows in
    (r, <[output_path := CsvFile fieldnames written]> files)
  else (Raise OSError, files).
End Files.

(** ** The program *)

(** The parsed command line. *)
Record namespace : Type := Namespace {
  ns_keyword : option pystr;
  ns_output : option pystr;
  ns_show : pystr;
  ns_page_size : Z;
}.

Inductive printed : Type :=
| Prompt                                  (* ["Enter search keyword: "] *)
| Wrote (count : nat) (output_path : pystr).

(** What the program acts on. *)
Record world (St : Type) : Type := World {
  w_server : St;
  w_files : gmap pystr csv_file;
  w_stdin : list pystr;
  w_stdout : list printed;
  w_requests : list (request * http_outcome);
}.
Arguments World {St}.
Arguments w_server {St}.
Arguments w_files {St}.
Arguments w_stdin {St}.
Arguments w_stdout {St}.
Arguments w_requests {St}.

Section Main.
Context {St : Type}.
Variable home : St → bool * St.
Variable search : St → request → http_outcome * St.
Variable writable : pystr → bool.

(** [args.keyword or input("Enter search keyword: ").strip()] *)
Definition read_keyword (args : namespace) (w : world St)
    : res pystr * world St :=
  match ns_keyword args with
  | Some (c :: k) => (Ok (c :: k), w)
  | _ =>
      let out := w_stdout w ++ [Prompt] in
      match w_stdin w with
      | [] =>
          (Raise EOFError,
           World (w_server w) (w_files w) [] out (w_requests w))
      | line :: rest =>
          (Ok (strip line),
           World (w_server w) (w_files w) rest out (w_requests w))
      end
  end.

(** [args.output or f"exhibitors_{keyword}.csv"] *)
Definition output_path_of (args : namespace) (keyword : pystr) : pystr :=
  match ns_output args with
  | Some (c :: p) => c :: p
  | _ => py "exhibitors_" ++ keyword ++ py ".csv"
  end.

(** [main()], after [parser.parse_args()]. *)
Definition main (fuel : nat) (args : namespace) (w : world St)
    : outcome unit * world St :=
  match read_keyword args w with
  | (Raise e, w) => (Raised e, w)
  | (Ok keyword, w) =>
  match keyword with
  | [] => (Raised (SystemExit (py "Keyword is required.")), w)
  | _ :: _ =>
  let output_path := output_path_of args keyword in
  let '(primed, σ) := bootstrap_session home (w_server w) in
  let w := World σ (w_files w) (w_stdin w) (w_stdout w) (w_requests w) in
  match primed with
  | Raise e => (Raised e, w)
  | Ok _ =>
  let '(fetched, σ, trace) :=
    fetch_exhibitors search fuel σ keyword (ns_page_size args)
      (py "keyword") (ns_show args) in
  let w := World σ (w_files w) (w_stdin w) (w_stdout w)
             (w_requests w ++ trace) in
  match fetched with
  | OutOfFuel => (OutOfFuel, w)
  | Raised e => (Raised e, w)
  | Returned hits =>
  match traverse hit_to_row hits with
  | Raise e => (Raised e, w)
  | Ok rows =>
  let '(written, files) := write_csv writable rows output_path (w_files w) in
  let w := World σ files (w_stdin w) (w_stdout w) (w_requests w) in
  match written with
  | Raise e => (Raised e, w)
  | Ok _ =>
      (Returned (),
       World σ files (w_stdin w)
         (w_stdout w ++ [Wrote (length rows) output_path]) (w_requests w))
  end end end end end end.
End Main.

(** ** Vocabulary of the statements *)

(** *** Responses *)

(** The response is an object whose success flag is false or missing: the
    test of [if not payload.get("SUCCESS")]. *)
Definition search_failed (payload : value) : bool :=
  match payload with
  | JDict kvs => negb (truthy (default JNull (assoc (py "SUCCESS") kvs)))
  | _ => false
  end.

(** The found count of the results section, when the response has one. *)
Definition reported_found (show : pystr) (payload : value) : option value :=
  match result_section show payload with
  | Ok (JDict r) => assoc (py "found") r
  | _ => None
  end.

(** The hit list of the results section, when the response has one. *)
Definition reported_hits (show : pystr) (payload : value) : option value :=
  match result_section show payload with
  | Ok (JDict r) => assoc (py "hit") r
  | _ => None
  end.

(** A successful response whose results section carries the found count
    [found] and the list of records [batch]. *)
Definition serves_page (show : pystr) (payload : value) (found : Z)
    (batch : list value) : Prop :=
  search_failed payload = false ∧
  (∃ kvs, payload = JDict kvs) ∧
  reported_found show payload = Some (JInt found) ∧
  reported_hits show payload = Some (JList batch).

(** [n == v] for an [int] on the left. *)
Definition int_eq_float (n : Z) (f : spec_float) : bool :=
  match f with
  | S754_zero _ => n =? 0
  | S754_infinity _ => false
  | S754_nan => false
  | S754_finite negative m e =>
      let v := if negative then Z.neg m else Z.pos m in
      if 0 <=? e then n =? v * 2 ^ e else n * 2 ^ (- e) =? v
  end.

Definition py_eq_int (n : Z) (v : value) : bool :=
  match v with
  | JInt m => n =? m
  | JBool b => n =? (if b then 1 else 0)
  | JFloat f => int_eq_float n f
  | _ => false
  end.

(** [records[start : start + size]] for non-negative bounds. *)
Definition slice (records : list value) (start size : Z) : list value :=
  take (Z.to_nat size) (drop (Z.to_nat start) records).

(** A well-behaved server holds a fixed sequence of records and answers
    every search request with the page the request asks for and the
    number of records it holds. *)
Definition well_behaved {St : Type}
    (search : St → request → http_outcome * St) (records : list value)
    : Prop :=
  ∀ σ rq, ∃ payload,
    fst (search σ rq) = Json payload ∧
    serves_page (rq_show rq) payload (Z.of_nat (length records))
      (slice records (rq_start rq) (rq_searchsize rq)).

(** The smallest such response, and the server that sends nothing else. *)
Definition page_payload (show : pystr) (found : value) (batch : value)
    : value :=
  JDict [ (py "SUCCESS", JBool true);
          (py "DATA",
           JDict [ (py "results",
                    JDict [ (show,
                             JDict [ (py "found", found);
                                     (py "hit", batch) ]) ]) ]) ].

Definition honest_server (records : list value)
    (σ : unit) (rq : request) : http_outcome * unit :=
  (Json (page_payload (rq_show rq) (JInt (Z.of_nat (length records)))
           (JList (slice records (rq_start rq) (rq_searchsize rq)))), σ).

(** A server that answers every request with the same response. *)
Definition constant_server (resp : http_outcome)
    (σ : unit) (rq : request) : http_outcome * unit := (resp, σ).

(** A server that answers the [n]-th request with the [n]-th response of
    a script, and not at all once the script is over. *)
Definition scripted_server (σ : list http_outcome) (rq : request)
    : http_outcome * list http_outcome :=
  match σ with
  | [] => (NoResponse, [])
  | resp :: rest => (resp, rest)
  end.

(** [ceil(n / d)] *)
Definition ceil_div (n d : Z) : Z := (n + d - 1) / d.

(** *** Records *)

Definition as_str (v : value) : option pystr :=
  match v with JStr s => Some s | _ => None end.

Fixpoint strs_of (l : list value) : option (list pystr) :=
  match l with
  | [] => Some []
  | v :: l' =>
      match as_str v, strs_of l' with
      | Some s, Some ss => Some (s :: ss)
      | _, _ => None
      end
  end.

Definition as_str_list (v : value) : option (list pystr) :=
  match v with JList l => strs_of l | _ => None end.

(** The source fields of the record flattening reads: the list-valued
    ones and the single-valued ones. *)
Definition list_fields : list pystr :=
  [ py "boothsdisplay_la"; py "hallid_la"; py "exhtags_la"; py "tags" ].

Definition scalar_fields : list pystr :=
  [ py "exhid_l"; py "exhname_t"; py "exhdesc_t"; py "seekfunding_t";
    py "fundingamount_t"; py "investmentstage_l"; py "revenue_t";
    py "exhlogo_t"; py "exhfeatured_t" ].

Definition absent_or {A} (P : value → option A) (o : option value) : bool :=
  match o with
  | None => true
  | Some v => bool_decide (is_Some (P v))
  end.

(** A Record of the data model: an object whose field mapping, when it
    has one, maps each list-valued field it has to a list of strings and
    each single-valued field it has to a string. *)
Definition is_record (hit : value) : bool :=
  match hit with
  | JDict kvs =>
      match assoc (py "fields") kvs with
      | None => true
      | Some (JDict fs) =>
          forallb (λ k, absent_or as_str_list (assoc k fs)) list_fields &&
          forallb (λ k, absent_or as_str (assoc k fs)) scalar_fields
      | Some _ => false
      end
  | _ => false
  end.

(** The value of a source field of a record; [None] when absent. *)
Definition field (hit : value) (k : pystr) : option value :=
  match hit with
  | JDict kvs =>
      match assoc (py "fields") kvs with
      | Some (JDict fs) => assoc k fs
      | _ => None
      end
  | _ => None
  end.

(** A list-valued field, the empty list when absent. *)
Definition list_field (hit : value) (k : pystr) : list pystr :=
  default [] (v ← field hit k; as_str_list v).

(** A single-valued field, the empty string when absent. *)
Definition scalar_field (hit : value) (k : pystr) : pystr :=
  default [] (v ← field hit k; as_str v).

Definition nonempty (s : pystr) : bool :=
  match s with [] => false | _ => true end.

(** The source fields each column of a row is computed from. *)
Definition column_sources : list (pystr * list pystr) :=
  [ (py "exhibitor_id", [py "exhid_l"]);
    (py "name", [py "exhname_t"]);
    (py "booths", [py "boothsdisplay_la"]);
    (py "hall", [py "hallid_la"]);
    (py "description", [py "exhdesc_t"]);
    (py "seeking_funding", [py "seekfunding_t"]);
    (py "funding_amount", [py "fundingamount_t"]);
    (py "investment_stage", [py "investmentstage_l"]);
    (py "revenue", [py "revenue_t"]);
    (py "logo_file", [py "exhlogo_t"]);
    (py "featured", [py "exhfeatured_t"]);
    (py "tags", [py "exhtags_la"; py "tags"]) ].

(** *** The field rules as the specification words them *)

(** Booths: clean every entry, then join the entries that are non-empty
    after the cleanup. *)
Definition booths_rule (hit : value) : pystr :=
  join (py "; ")
    (List.filter nonempty
       (List.map strip_randomstring (list_field hit (py "boothsdisplay_la")))).

(** Tags: the first of the two tag fields that is present. *)
Definition tags_rule (hit : value) : pystr :=
  match field hit (py "exhtags_la") with
  | Some v => join (py "; ") (default [] (as_str_list v))
  | None => join (py "; ") (list_field hit (py "tags"))
  end.

(** *** The row flattening computes for a record *)

(** Booths: the entries that are non-empty as received, each cleaned. *)
Definition booths_of (hit : value) : pystr :=
  join (py "; ")
    (List.map strip_randomstring
       (List.filter nonempty (list_field hit (py "boothsdisplay_la")))).

(** Tags: the first of the two tag fields that is present and non-empty. *)
Definition tags_of (hit : value) : pystr :=
  join (py "; ")
    match list_field hit (py "exhtags_la") with
    | [] => list_field hit (py "tags")
    | t :: ts => t :: ts
    end.

Definition row_of (hit : value) : list (pystr * value) :=
  [ (py "exhibitor_id", JStr (scalar_field hit (py "exhid_l")));
    (py "name", JStr (scalar_field hit (py "exhname_t")));
    (py "booths", JStr (booths_of hit));
    (py "hall", JStr (join (py "; ") (list_field hit (py "hallid_la"))));
    (py "description", JStr (scalar_field hit (py "exhdesc_t")));
    (py "seeking_funding", JStr (scalar_field hit (py "seekfunding_t")));
    (py "funding_amount", JStr (scalar_field hit (py "fundingamount_t")));
    (py "investment_stage", JStr (scalar_field hit (py "investmentstage_l")));
    (py "revenue", JStr (scalar_field hit (py "revenue_t")));
    (py "logo_file", JStr (scalar_field hit (py "exhlogo_t")));
    (py "featured", JStr (scalar_field hit (py "exhfeatured_t")));
    (py "tags", JStr (tags_of hit)) ].

(** *** Sample records *)

(** A record whose field mapping has the single list-valued field [k]. *)
Definition record_with (k : pystr) (entries : list pystr) : value :=
  JDict [ (py "fields", JDict [ (k, JList (List.map JStr entries)) ]) ].

Definition sample_hit : value :=
  JDict [ (py "fields",
           JDict [ (py "exhid_l", JStr (py "42"));
                   (py "exhname_t", JStr (py "Acme"));
                   (py "boothsdisplay_la",
                    JList [ JStr (py "Hall A-123randomstring");
                            JStr (py "  B-45  ") ]);
                   (py "tags", JList [ JStr (py "ai"); JStr (py "robots") ])
                 ]) ].

(** *** Pages *)

(** The records of the page a successful response carries: its hit list,
    the empty list when the results section has none. *)
Definition page_batch (show : pystr) (payload : value) : value :=
  default (JList []) (reported_hits show payload).

(** The total the loop compares the offset with after a page: the found
    count of the response, the number of records accumulated when the
    results section has none. *)
Definition page_total (show : pystr) (payload : value) (hits : list value)
    : value :=
  default (JInt (Z.of_nat (length hits))) (reported_found show payload).

(** A successful response whose results section is an object without
    found count, with a hit list that can be iterated when it has one. *)
Definition omits_found (show : pystr) (payload : value) : Prop :=
  search_failed payload = false ∧
  (∃ r, result_section show payload = Ok (JDict r)) ∧
  reported_found show payload = None ∧
  (∃ items, py_iter (page_batch show payload) = Ok items).

(** *** Sample runs *)

Definition exhibitor : pystr := py "exhibitor".

Definition exhibitor_numbered (n : string) : value :=
  JDict [ (py "fields", JDict [ (py "exhid_l", JStr (py n)) ]) ].

Definition three_records : list value :=
  [ exhibitor_numbered "1"; exhibitor_numbered "2"; exhibitor_numbered "3" ].

(** A response with a false success flag. *)
Definition failed_payload : value :=
  JDict [ (py "SUCCESS", JBool false); (py "MESSAGE", JStr (py "busy")) ].

(** A successful response whose results section is empty. *)
Definition bare_payload : value :=
  JDict [ (py "SUCCESS", JBool true);
          (py "DATA",
           JDict [ (py "results", JDict [ (exhibitor, JDict []) ]) ]) ].

(** A successful response without [DATA]. *)
Definition dataless_payload : value := JDict [ (py "SUCCESS", JBool true) ].

(** A successful response with two records and no found count. *)
Definition countless_payload : value :=
  JDict [ (py "SUCCESS", JBool true);
          (py "DATA",
           JDict [ (py "results",
                    JDict [ (exhibitor,
                             JDict [ (py "hit",
                                      JList (take 2 three_records)) ]) ]) ]) ].

(** One page of two records, then a failure. *)
Definition failing_script : list http_outcome :=
  [ Json (page_payload exhibitor (JInt 3) (JList (take 2 three_records)));
    Json failed_payload ].

Definition always_home {St : Type} (σ : St) : bool * St := (true, σ).
Definition any_path (path : pystr) : bool := true.

(** [--keyword ai --page-size 2] *)
Definition sample_args : namespace :=
  Namespace (Some (py "ai")) None exhibitor 2.

Definition fresh_world {St : Type} (σ : St) : world St := World σ ∅ [] [] [].

Definition sample_request (start : Z) : request :=
  Request (py "ai") (py "keyword") 2 start exhibitor.

(** *** Traces *)

(** The records a response in the trace of a run added to [hits]: what
    iterating its hit list yields. *)
Definition page_items (show : pystr) (resp : http_outcome) : list value :=
  match resp with
  | Json payload =>
      match py_iter (page_batch show payload) with
      | Ok items => items
      | Raise _ => []
      end
  | _ => []
  end.

(** The records of all the responses of a trace, in order. *)
Definition trace_items (show : pystr)
    (trace : list (request * http_outcome)) : list value :=
  concat (List.map (λ entry, page_items show (snd entry)) trace).

Definition is_object (v : value) : bool :=
  match v with JDict _ => true | _ => false end.

Definition is_number (v : value) : bool :=
  match v with JInt _ | JBool _ | JFloat _ => true | _ => false end.

(** A successful response whose results section is an object with a
    found count that is not a number. *)
Definition found_not_number (show : pystr) (payload : value) : Prop :=
  search_failed payload = false ∧
  (∃ r, result_section show payload = Ok (JDict r)) ∧
  ∃ v, reported_found show payload = Some v ∧ is_number v = false.

(** A server that always has more: every page it sends holds a record
    and reports a found count beyond the offset the page leads to. *)
Definition never_done {St : Type}
    (search : St → request → http_outcome * St) : Prop :=
  ∀ σ rq, ∃ payload found batch,
    fst (search σ rq) = Json payload ∧
    serves_page (rq_show rq) payload found batch ∧
    batch ≠ [] ∧
    rq_start rq + Z.of_nat (length batch) < found.

Definition greedy_server (σ : unit) (rq : request) : http_outcome * unit :=
  (Json (page_payload (rq_show rq) (JInt (rq_start rq + 2)) (JList [JNull])),
   σ).

(** *** Hits *)

(** The hit is an object whose field mapping, when it has one, is an
    object: what [hit.get("fields", {})] and [fields.get] need. *)
Definition has_fields (hit : value) : bool :=
  match hit with
  | JDict kvs =>
      match assoc (py "fields") kvs with
      | None => true
      | Some fields => is_object fields
      end
  | _ => false
  end.

(** A source field as [or] sees it: [None] when absent or falsy. *)
Definition truthy_field (hit : value) (k : pystr) : option value :=
  v ← field hit k; if truthy v then Some v else None.

(** The single-valued columns and the source field of each. *)
Definition scalar_columns : list (pystr * pystr) :=
  [ (py "exhibitor_id", py "exhid_l");
    (py "name", py "exhname_t");
    (py "description", py "exhdesc_t");
    (py "seeking_funding", py "seekfunding_t");
    (py "funding_amount", py "fundingamount_t");
    (py "investment_stage", py "investmentstage_l");
    (py "revenue", py "revenue_t");
    (py "logo_file", py "exhlogo_t");
    (py "featured", py "exhfeatured_t") ].

(** The cells written for a row: its values, in the order of its keys. *)
Definition cells_of (row : list (pystr * value)) : list value :=
  List.map snd row.

(** *** More sample runs *)

(** One page of two records, then a server error. *)
Definition dropped_script : list http_outcome :=
  [ Json (page_payload exhibitor (JInt 3) (JList (take 2 three_records)));
    BadStatus 503 ].

(** A successful response with a null found count. *)
Definition null_found_payload : value :=
  page_payload exhibitor JNull (JList (take 2 three_records)).

(** The sample record with a key flattening does not read and a null
    hall list. *)
Definition sample_hit_padded : value :=
  JDict [ (py "id", JInt 7);
          (py "fields",
           JDict [ (py "exhid_l", JStr (py "42"));
                   (py "exhname_t", JStr (py "Acme"));
                   (py "hallid_la", JNull);
                   (py "score", JFloat S754_nan);
                   (py "boothsdisplay_la",
                    JList [ JStr (py "Hall A-123randomstring");
                            JStr (py "  B-45  ") ]);
                   (py "tags", JList [ JStr (py "ai"); JStr (py "robots") ])
                 ]) ].

(** No [--keyword]: the keyword is asked for. *)
Definition prompting_args : namespace := Namespace None None exhibitor 2.

(** * Properties *)

Arguments py : simpl never.

(** ** Strings *)

Example replace_example :
  replace (py "ab") (py "-") (py "xabababy") = py "x---y".
Proof. reflexivity. Qed.

Example replace_empty_old :
  replace [] (py "-") (py "abc") = py "-a-b-c-".
Proof. reflexivity. Qed.

Example strip_randomstring_example :
  strip_randomstring (py "Hall A-123randomstring") = py "Hall A-123" ∧
  strip_randomstring (py "  B-45  ") = py "B-45".
Proof. split; reflexivity. Qed.

Lemma occurs_app_l p a b : occurs p a → occurs p (a ++ b).
Proof.
  intros (x & y & ->). exists x, (y ++ b). by rewrite <- !app_assoc.
Qed.

Lemma occurs_app_r p a b : occurs p b → occurs p (a ++ b).
Proof.
  intros (x & y & ->). exists (a ++ x), y. by rewrite <- !app_assoc.
Qed.

Lemma starts_with_spec p s : starts_with p s = true ↔ ∃ t, s = p ++ t.
Proof.
  revert s. induction p as [|a p IH]; intros s; simpl.
  - split; [intros _; by exists s | done].
  - destruct s as [|b s].
    + split; [done | intros (t & Ht); discriminate].
    + rewrite andb_true_iff, N.eqb_eq, IH. split.
      * intros (-> & t & ->). by exists t.
      * intros (t & Ht). injection Ht as -> ->. eauto.
Qed.

Lemma contains_occurs p s : contains p s = true ↔ occurs p s.
Proof.
  induction s as [|c s IH]; simpl.
  - rewrite orb_false_r, starts_with_spec. split.
    + intros (t & Ht). by exists [], t.
    + intros (a & b & Hab). destruct a; [by exists b | discriminate].
  - rewrite orb_true_iff, starts_with_spec, IH. split.
    + intros [(t & ->) | (a & b & ->)]; [by exists [], t | by exists (c :: a), b].
    + intros (a & b & Hab). destruct a as [|c' a].
      * left. by exists b.
      * right. injection Hab as -> ->. by exists a, b.
Qed.

Lemma contains_false p s : contains p s = false ↔ ¬ occurs p s.
Proof. rewrite <- contains_occurs. by destruct (contains p s). Qed.

(** *** [strip] *)

Lemma lstrip_suffix s : ∃ w, s = w ++ lstrip s.
Proof.
  induction s as [|c s (w & IH)]; simpl; [by exists [] |].
  destruct (isspace c); [| by exists []].
  exists (c :: w). simpl. by rewrite <- IH.
Qed.

Lemma lstrip_head s c : head (lstrip s) = Some c → isspace c = false.
Proof.
  induction s as [|d s IH]; simpl; [done |].
  destruct (isspace d) eqn:Hd; [done |]. simpl. by intros [= <-].
Qed.

Lemma rstrip_prefix s : ∃ w, s = rstrip s ++ w.
Proof.
  unfold rstrip. destruct (lstrip_suffix (reverse s)) as (w & Hw).
  exists (reverse w).
  rewrite <- reverse_app, <- Hw. by rewrite reverse_involutive.
Qed.

Lemma rstrip_last s c : last (rstrip s) = Some c → isspace c = false.
Proof. unfold rstrip. rewrite last_reverse. apply lstrip_head. Qed.

Lemma strip_trimmed s : trimmed (strip s).
Proof.
  unfold strip. split; intros c Hc.
  - destruct (rstrip_prefix (lstrip s)) as (w & Hw).
    apply (lstrip_head s). rewrite Hw.
    destruct (rstrip (lstrip s)); [done | by simpl in *].
  - by apply rstrip_last in Hc.
Qed.

Lemma strip_infix s : ∃ a b, s = a ++ strip s ++ b.
Proof.
  unfold strip. destruct (lstrip_suffix s) as (a & Ha).
  destruct (rstrip_prefix (lstrip s)) as (b & Hb).
  exists a, b. by rewrite <- Hb.
Qed.

Lemma strip_no_new_occurrence p s : ¬ occurs p s → ¬ occurs p (strip s).
Proof.
  intros Hs Hp. apply Hs. destruct (strip_infix s) as (a & b & Hab).
  rewrite Hab. by apply occurs_app_r, occurs_app_l.
Qed.

(** *** [replace] *)

Lemma replace_from_skip old new k s :
  replace_from old new k s = replace_from old new 0 (drop k s).
Proof.
  revert k. induction s as [|c s IH]; intros k; [by destruct k |].
  destruct k as [|k]; [done |]. simpl. apply IH.
Qed.

Lemma replace_cons old new c s :
  old ≠ [] → starts_with old (c :: s) = false →
  replace old new (c :: s) = c :: replace old new s.
Proof.
  intros Hold Hs. unfold replace. destruct old as [|o old]; [done |].
  cbn [replace_from]. by rewrite Hs.
Qed.

Lemma replace_match old new t :
  old ≠ [] → replace old new (old ++ t) = new ++ replace old new t.
Proof.
  intros Hold. unfold replace. destruct old as [|o old]; [done |].
  assert (starts_with (o :: old) ((o :: old) ++ t) = true) as Hs
    by (apply starts_with_spec; eauto).
  change ((o :: old) ++ t) with (o :: (old ++ t)) in *.
  cbn [replace_from]. rewrite Hs, replace_from_skip.
  replace (length (o :: old) - 1)%nat with (length old) by (simpl; lia).
  by rewrite drop_app_length.
Qed.

Lemma replace_absent old new s :
  old ≠ [] → ¬ occurs old s → replace old new s = s.
Proof.
  intros Hold. induction s as [|c s IH]; intros Hs.
  - by destruct old.
  - rewrite replace_cons, IH; try done.
    + intros (a & b & ->). apply Hs. by exists (c :: a), b.
    + destruct (starts_with old (c :: s)) eqn:E; [| done].
      apply starts_with_spec in E as (t & Ht). destruct Hs. by exists [], t.
Qed.

(** Past text free of [old], the scan of an unbordered [old] reaches the
    match that follows the text. *)
Lemma replace_text_then_match old new p t :
  old ≠ [] → unbordered old → ¬ occurs old p →
  replace old new (p ++ old ++ t) = p ++ new ++ replace old new t.
Proof.
  intros Hold Hub. induction p as [|c p IH]; intros Hp.
  - simpl. by apply replace_match.
  - change ((c :: p) ++ old ++ t) with (c :: (p ++ old ++ t)).
    rewrite replace_cons, IH; try done.
    + intros (a & b & ->). apply Hp. by exists (c :: a), b.
    + destruct (starts_with old (c :: p ++ old ++ t)) eqn:E; [| done].
      exfalso. apply starts_with_spec in E as (u & Hu).
      change (c :: p ++ old ++ t) with ((c :: p) ++ old ++ t) in Hu.
      set (q := c :: p) in *.
      destruct (decide (length old ≤ length q)%nat) as [Hle | Hgt].
      * apply Hp. exists [], (drop (length old) q). simpl.
        apply (f_equal (take (length old))) in Hu.
        rewrite (take_app_le q) in Hu by done.
        rewrite take_app_length in Hu.
        rewrite <- (take_drop (length old) q) at 1. by rewrite Hu.
      * assert (length q ≠ 0)%nat by done.
        apply (Hub (length old - length q)%nat); [lia |].
        replace (length old - (length old - length q))%nat
          with (length q) by lia.
        apply (f_equal (drop (length q))) in Hu.
        rewrite drop_app_length in Hu.
        rewrite drop_app_le in Hu by lia.
        apply (f_equal (take (length old - length q))) in Hu.
        rewrite take_app_le, (take_app_le (drop _ _)) in Hu
          by (rewrite ?length_drop; lia).
        rewrite Hu. apply take_ge. rewrite length_drop. lia.
Qed.

Lemma join_cons sep p q rest :
  join sep (p :: q :: rest) = p ++ sep ++ join sep (q :: rest).
Proof. done. Qed.

(** Deleting an unbordered marker from pieces joined by it leaves the
    pieces, provided their concatenation is free of the marker. *)
Lemma replace_join old parts :
  old ≠ [] → unbordered old → ¬ occurs old (concat parts) →
  replace old [] (join old parts) = concat parts.
Proof.
  intros Hold Hub. induction parts as [|p [|q rest] IH]; intros Hfree.
  - by destruct old.
  - simpl in *. rewrite app_nil_r in *. by apply replace_absent.
  - rewrite join_cons, replace_text_then_match; try done.
    + change (p ++ replace old [] (join old (q :: rest))
              = p ++ concat (q :: rest)).
      f_equal. apply IH.
      intros Ho. apply Hfree. by apply occurs_app_r.
    + intros Ho. apply Hfree. by apply occurs_app_l.
Qed.

Lemma randomstring_unbordered : unbordered randomstring.
Proof.
  intros k [Hlo Hhi]. change (length randomstring) with 12%nat in *.
  do 12 (destruct k as [|k]; [first [lia | by vm_compute] |]). lia.
Qed.

(** *** [strip_randomstring] *)

Lemma strip_randomstring_join parts :
  contains randomstring (concat parts) = false →
  strip_randomstring (join randomstring parts) = strip (concat parts).
Proof.
  intros Hfree. unfold strip_randomstring. f_equal.
  apply replace_join; [done | apply randomstring_unbordered |].
  by apply contains_false.
Qed.

Example strip_randomstring_nested :
  strip_randomstring (py "randomrandomstringstring") = py "randomstring".
Proof. reflexivity. Qed.

(** C2, as stated: for every input, the output of [strip_randomstring]
    contains no ["randomstring"] and is trimmed. It fails: one pass of
    [replace] over ["randomrandomstringstring"] deletes the inner marker
    and leaves the marker formed by the text around it. *)
Lemma strip_randomstring_leaves_marker :
  ¬ (∀ value,
       contains randomstring (strip_randomstring value) = false ∧
       trimmed (strip_randomstring value)).
Proof.
  intros H. destruct (H (py "randomrandomstringstring")) as [Hc _].
  vm_compute in Hc. discriminate.
Qed.

(** C2, amended: for every input string the output of
    [strip_randomstring] has no leading or trailing whitespace; and when
    the input consists of text pieces separated by occurrences of
    ["randomstring"] (zero or more) whose concatenation contains no
    ["randomstring"], the output is that concatenation trimmed and
    contains no occurrence of ["randomstring"]. *)
Theorem strip_randomstring_clean :
  (∀ value, trimmed (strip_randomstring value)) ∧
  (∀ parts,
     contains randomstring (concat parts) = false →
     strip_randomstring (join randomstring parts) = strip (concat parts) ∧
     contains randomstring (strip_randomstring (join randomstring parts))
       = false).
Proof.
  split; [intros value; apply strip_trimmed |].
  intros parts Hfree. split; [by apply strip_randomstring_join |].
  rewrite strip_randomstring_join by done.
  apply contains_false, strip_no_new_occurrence. by apply contains_false.
Qed.

Lemma strip_randomstring_clean_witness :
  trimmed (strip_randomstring (py "  Hall A-123randomstring ")) ∧
  contains randomstring (concat [py "  Hall A-123"; py " "]) = false ∧
  strip_randomstring (py "  Hall A-123randomstring ") = py "Hall A-123" ∧
  contains randomstring (strip_randomstring (py "  Hall A-123randomstring "))
    = false.
Proof.
  destruct strip_randomstring_clean as [Htrim Hjoin].
  split; [apply Htrim |]. split; [reflexivity |].
  destruct (Hjoin [py "  Hall A-123"; py " "] eq_refl) as [Heq Hfree].
  split; [reflexivity | exact Hfree].
Defined.

(** ** Flattening *)

Lemma strs_of_map l ss : strs_of l = Some ss → l = List.map JStr ss.
Proof.
  revert ss. induction l as [|v l IH]; intros ss; simpl.
  - by intros [= <-].
  - destruct v; try done. simpl.
    destruct (strs_of l) as [ss'|]; [| done].
    intros [= <-]. simpl. by rewrite (IH ss').
Qed.

Lemma strs_of_strs ss : strs_of (List.map JStr ss) = Some ss.
Proof. induction ss as [|s ss IH]; simpl; [done | by rewrite IH]. Qed.

Lemma traverse_strs ss :
  traverse (λ x, match x with JStr s => Ok s | _ => Raise TypeError end)
    (List.map JStr ss) = Ok ss.
Proof. induction ss as [|s ss IH]; simpl; [done | by rewrite IH]. Qed.

Lemma traverse_cleaned ss :
  traverse
    (λ b, match b with
          | JStr s => Ok (strip_randomstring s)
          | _ => Raise AttributeError
          end)
    (List.filter truthy (List.map JStr ss))
  = Ok (List.map strip_randomstring (List.filter nonempty ss)).
Proof.
  induction ss as [|s ss IH]; [done |].
  destruct s as [|c s]; [exact IH |].
  cbn [List.map List.filter truthy nonempty traverse].
  rewrite IH. done.
Qed.

Lemma py_join_strs sep ss : py_join sep (JList (List.map JStr ss)) = Ok (join sep ss).
Proof. unfold py_join. cbn [py_iter mbind res_bind]. by rewrite traverse_strs. Qed.

(** A list-valued field read through [or]. *)
Lemma list_field_or o ss :
  absent_or as_str_list o = true →
  py_or (default JNull o) (JList (List.map JStr ss))
  = JList (List.map JStr
             match default [] (v ← o; as_str_list v) with
             | [] => ss
             | t :: ts => t :: ts
             end).
Proof.
  destruct o as [v|]; [| done]. simpl. intros Hv.
  apply bool_decide_eq_true in Hv as [l Hl]. rewrite Hl. simpl.
  destruct v; try done. simpl in Hl. apply strs_of_map in Hl as ->.
  by destruct l.
Qed.

Lemma list_field_or_empty o :
  absent_or as_str_list o = true →
  py_or (default JNull o) (JList [])
  = JList (List.map JStr (default [] (v ← o; as_str_list v))).
Proof.
  intros Ho. change (JList []) with (JList (List.map JStr [])) at 1.
  rewrite (list_field_or o [] Ho). by destruct (default [] _).
Qed.

(** A single-valued field read with the default [""]. *)
Lemma scalar_field_default o :
  absent_or as_str o = true →
  default (JStr []) o = JStr (default [] (v ← o; as_str v)).
Proof.
  destruct o as [v|]; [| done]. simpl. intros Hv.
  apply bool_decide_eq_true in Hv as [s Hs]. by destruct v.
Qed.

(** On a record, [hit_to_row] returns, and returns [row_of]. *)
Lemma hit_to_row_record hit :
  is_record hit = true → hit_to_row hit = Ok (row_of hit).
Proof.
  destruct hit as [| | | | | |kvs]; try done.
  unfold is_record, hit_to_row, row_of, booths_of, tags_of, list_field,
    scalar_field, field.
  cbn [py_get mbind res_bind].
  destruct (assoc (py "fields") kvs) as [fields|]; [| intros _; reflexivity].
  destruct fields as [| | | | | |fs]; try done.
  cbn [forallb list_fields scalar_fields default mbind option_bind from_option id].
  rewrite !andb_true_iff. intros H. destruct_and!.
  cbn [py_get mbind res_bind].
  rewrite !list_field_or_empty by done.
  rewrite list_field_or by done.
  rewrite !scalar_field_default by done.
  cbn [py_iter mbind res_bind].
  rewrite traverse_cleaned. cbn [mbind res_bind].
  rewrite !py_join_strs. reflexivity.
Qed.

Lemma scalar_field_absent hit k : field hit k = None → scalar_field hit k = [].
Proof. unfold scalar_field. by intros ->. Qed.

Lemma list_field_absent hit k : field hit k = None → list_field hit k = [].
Proof. unfold list_field. by intros ->. Qed.

Example hit_to_row_sample :
  hit_to_row sample_hit
  = Ok [ (py "exhibitor_id", JStr (py "42"));
         (py "name", JStr (py "Acme"));
         (py "booths", JStr (py "Hall A-123; B-45"));
         (py "hall", JStr []);
         (py "description", JStr []);
         (py "seeking_funding", JStr []);
         (py "funding_amount", JStr []);
         (py "investment_stage", JStr []);
         (py "revenue", JStr []);
         (py "logo_file", JStr []);
         (py "featured", JStr []);
         (py "tags", JStr (py "ai; robots")) ].
Proof. reflexivity. Qed.

(** Outside the data model the flattener does raise. *)
Example hit_to_row_null_fields :
  hit_to_row (JDict [ (py "fields", JNull) ]) = Raise AttributeError.
Proof. reflexivity. Qed.

(** A value that is not a string passes through a single-valued column
    as it is. *)
Example hit_to_row_number_kept :
  (row ← hit_to_row
           (JDict [ (py "fields", JDict [ (py "exhid_l", JInt 42) ]) ]);
   Ok (assoc (py "exhibitor_id") row))
  = Ok (Some (JInt 42)).
Proof. reflexivity. Qed.

(** C3, as stated: the booths column joins the entries that are non-empty
    after the cleanup. It fails: the source tests an entry before cleaning
    it, so an entry that is only the marker stays in the join, as an empty
    string. *)
Lemma booths_keeps_emptied_entry :
  ¬ (∀ hit, is_record hit = true →
       ∃ row, hit_to_row hit = Ok row ∧
              assoc (py "booths") row = Some (JStr (booths_rule hit))).
Proof.
  intros H.
  destruct (H (record_with (py "boothsdisplay_la")
                 [py "A-1"; py "randomstring"]) eq_refl)
    as (row & Hrow & Hbooths).
  vm_compute in Hrow. injection Hrow as <-.
  vm_compute in Hbooths. discriminate.
Qed.

Example booths_emptied_entry :
  (row ← hit_to_row
           (record_with (py "boothsdisplay_la") [py "A-1"; py "randomstring"]);
   Ok (assoc (py "booths") row))
  = Ok (Some (JStr (py "A-1; "))).
Proof. reflexivity. Qed.

(** C3, amended: for every record, the booths column is obtained from the
    list-valued booth-display field (the empty list when absent) by
    keeping the entries that are non-empty as received, removing
    ["randomstring"] from each and trimming it, and joining the results
    with ["; "]. *)
Theorem booths_flattened hit :
  is_record hit = true →
  ∃ row, hit_to_row hit = Ok row ∧
         assoc (py "booths") row
         = Some (JStr (join (py "; ")
                         (List.map strip_randomstring
                            (List.filter nonempty
                               (list_field hit (py "boothsdisplay_la")))))).
Proof.
  intros Hrec. exists (row_of hit). split; [by apply hit_to_row_record |].
  reflexivity.
Qed.

Lemma booths_flattened_witness :
  ∃ row, hit_to_row sample_hit = Ok row ∧
         assoc (py "booths") row = Some (JStr (py "Hall A-123; B-45")).
Proof. exact (booths_flattened sample_hit eq_refl). Defined.

Lemma is_record_with k entries :
  k ∈ list_fields → is_record (record_with k entries) = true.
Proof.
  intros Hk. unfold record_with.
  assert (absent_or as_str_list (Some (JList (List.map JStr entries))) = true)
    as Hv by (simpl; by rewrite strs_of_strs).
  revert Hv. generalize (JList (List.map JStr entries)). intros v Hv.
  repeat (apply elem_of_cons in Hk as [-> | Hk]);
    [ .. | by apply elem_of_nil in Hk ];
    lazy -[absent_or as_str_list as_str] in Hv |- *; by rewrite Hv.
Qed.

(** C5, as stated: the tags column joins [exhtags_la] when that field is
    present, else [tags]. It fails: the source falls back with [or], so
    an [exhtags_la] that is present and empty gives way to [tags]. *)
Lemma tags_empty_falls_back :
  ¬ (∀ hit, is_record hit = true →
       ∃ row, hit_to_row hit = Ok row ∧
              assoc (py "tags") row = Some (JStr (tags_rule hit))).
Proof.
  intros H.
  destruct (H (JDict [ (py "fields",
                        JDict [ (py "exhtags_la", JList []);
                                (py "tags", JList [JStr (py "ai")]) ]) ])
              eq_refl) as (row & Hrow & Htags).
  vm_compute in Hrow. injection Hrow as <-.
  vm_compute in Htags. discriminate.
Qed.

(** C5, amended: for every record, the tags column is the ["; "]-join of
    the [exhtags_la] list when that field is present and non-empty, else
    of the [tags] list when that field is present, else of the empty
    list; a list of tags gives the same column under either field
    name. *)
Theorem tags_flattened :
  (∀ hit, is_record hit = true →
     ∃ row, hit_to_row hit = Ok row ∧
            assoc (py "tags") row
            = Some (JStr (join (py "; ")
                            match list_field hit (py "exhtags_la") with
                            | [] => list_field hit (py "tags")
                            | t :: ts => t :: ts
                            end))) ∧
  (∀ entries,
     ∃ row row',
       hit_to_row (record_with (py "exhtags_la") entries) = Ok row ∧
       hit_to_row (record_with (py "tags") entries) = Ok row' ∧
       assoc (py "tags") row = Some (JStr (join (py "; ") entries)) ∧
       assoc (py "tags") row' = Some (JStr (join (py "; ") entries))).
Proof.
  split.
  - intros hit Hrec. exists (row_of hit).
    split; [by apply hit_to_row_record | reflexivity].
  - intros entries.
    exists (row_of (record_with (py "exhtags_la") entries)),
           (row_of (record_with (py "tags") entries)).
    split; [apply hit_to_row_record, is_record_with; set_solver |].
    split; [apply hit_to_row_record, is_record_with; set_solver |].
    unfold row_of, tags_of, list_field, field, record_with.
    split.
    + change (assoc (py "tags") _) with
        (Some (JStr (join (py "; ")
           match default [] (strs_of (List.map JStr entries)) with
           | [] => []
           | t :: ts => t :: ts
           end))).
      rewrite strs_of_strs. by destruct entries.
    + change (assoc (py "tags") _) with
        (Some (JStr (join (py "; ")
           (default [] (strs_of (List.map JStr entries)))))).
      by rewrite strs_of_strs.
Qed.

Lemma tags_flattened_witness :
  (∃ row, hit_to_row sample_hit = Ok row ∧
          assoc (py "tags") row = Some (JStr (py "ai; robots"))) ∧
  (∃ row row',
     hit_to_row (record_with (py "exhtags_la") [py "ai"]) = Ok row ∧
     hit_to_row (record_with (py "tags") [py "ai"]) = Ok row' ∧
     assoc (py "tags") row = Some (JStr (py "ai")) ∧
     assoc (py "tags") row' = Some (JStr (py "ai"))).
Proof.
  destruct tags_flattened as [Hfirst Heither].
  split; [exact (Hfirst sample_hit eq_refl) | exact (Heither [py "ai"])].
Defined.

(** C8: the flattener is total on records. For every record, whichever
    of its source fields are absent, [hit_to_row] returns without raising
    a row of exactly the twelve field names, in the order of the header,
    each bound to a string; a column none of whose source fields is
    present is the empty string. *)
Theorem hit_to_row_total hit :
  is_record hit = true →
  ∃ row,
    hit_to_row hit = Ok row ∧
    length row = 12%nat ∧
    List.map fst row = fieldnames ∧
    Forall (λ kv, ∃ s, snd kv = JStr s) row ∧
    (∀ column sources,
       (column, sources) ∈ column_sources →
       (∀ src, src ∈ sources → field hit src = None) →
       assoc column row = Some (JStr [])).
Proof.
  intros Hrec. exists (row_of hit).
  split; [by apply hit_to_row_record |].
  split; [done |]. split; [done |]. split.
  - unfold row_of. repeat (apply Forall_cons; split; [simpl; eauto |]).
    apply Forall_nil_2.
  - intros column sources Hcol Habsent. apply Forall_forall in Habsent.
    unfold column_sources in Hcol.
    repeat (apply elem_of_cons in Hcol as [[= -> ->] | Hcol]);
      [ .. | by apply elem_of_nil in Hcol ];
      repeat (apply Forall_cons in Habsent as [? Habsent]);
      unfold row_of, booths_of, tags_of;
      repeat match goal with
             | H : field hit ?k = None |- _ =>
                 first [ rewrite (scalar_field_absent hit k H)
                       | rewrite (list_field_absent hit k H) ];
                 clear H
             end;
      reflexivity.
Qed.

Lemma hit_to_row_total_witness :
  ∃ row,
    hit_to_row (JDict []) = Ok row ∧
    length row = 12%nat ∧
    List.map fst row = fieldnames ∧
    Forall (λ kv, ∃ s, snd kv = JStr s) row ∧
    (∀ column sources,
       (column, sources) ∈ column_sources →
       (∀ src, src ∈ sources → field (JDict []) src = None) →
       assoc column row = Some (JStr [])).
Proof. exact (hit_to_row_total (JDict []) eq_refl). Defined.

Example hit_to_row_all_absent :
  hit_to_row (JDict []) = Ok (List.map (λ k, (k, JStr [])) fieldnames).
Proof. reflexivity. Qed.

(** ** One page *)

Lemma py_iter_len v items :
  py_iter v = Ok items → py_len v = Ok (Z.of_nat (length items)).
Proof.
  destruct v; try done; simpl; intros [= <-]; by rewrite ?length_map.
Qed.

Lemma py_iter_truthy v items :
  py_iter v = Ok items → truthy v = negb (bool_decide (items = [])).
Proof.
  destruct v as [| | | |s|l|kvs]; try done; simpl; intros [= <-].
  - by destruct s.
  - by destruct l.
  - by destruct kvs.
Qed.

Lemma result_section_dict show payload r :
  result_section show payload = Ok r → ∃ kvs, payload = JDict kvs.
Proof. destruct payload; try done. eauto. Qed.

(** A response with a false success flag raises, with the payload. *)
Lemma process_page_failed show payload hits start :
  search_failed payload = true →
  process_page show payload hits start = Raise (RuntimeError payload).
Proof.
  destruct payload as [| | | | | |kvs]; try done.
  unfold search_failed, process_page. cbn [py_get mbind res_bind].
  by intros ->.
Qed.

(** What a page that is processed without exception looks like. *)
Lemma process_page_ok show payload hits start pg :
  process_page show payload hits start = Ok pg →
  ∃ items reached,
    search_failed payload = false ∧
    (∃ r, result_section show payload = Ok (JDict r)) ∧
    pg_batch pg = page_batch show payload ∧
    py_iter (pg_batch pg) = Ok items ∧
    pg_hits pg = hits ++ items ∧
    pg_total pg = page_total show payload (hits ++ items) ∧
    pg_start pg = start + Z.of_nat (length items) ∧
    py_ge (pg_start pg) (pg_total pg) = Ok reached ∧
    pg_break pg = reached || bool_decide (items = []).
Proof.
  unfold process_page, page_batch, page_total, reported_hits, reported_found,
    search_failed.
  destruct payload as [| | | | | |kvs]; try done.
  cbn [py_get mbind res_bind].
  destruct (truthy (default JNull (assoc (py "SUCCESS") kvs))); [| done].
  cbn [negb].
  destruct (result_section show (JDict kvs)) as [result|]; [| done].
  cbn [mbind res_bind].
  destruct result as [| | | | | |r]; try done.
  cbn [py_get mbind res_bind].
  destruct (py_iter (default (JList []) (assoc (py "hit") r)))
    as [items|] eqn:Hitems; [| done].
  cbn [mbind res_bind].
  rewrite (py_iter_len _ _ Hitems). cbn [mbind res_bind].
  destruct (py_ge _ _) as [reached|] eqn:Hge; [| done].
  cbn [mbind res_bind]. intros [= <-]. cbn.
  exists items, reached.
  rewrite (py_iter_truthy _ _ Hitems), negb_involutive. eauto 10.
Qed.

(** The page a well-formed response makes. *)
Lemma process_page_serves show payload found batch hits start :
  serves_page show payload found batch →
  process_page show payload hits start
  = Ok (PageState (hits ++ batch) (JList batch) (JInt found)
          (start + Z.of_nat (length batch))
          ((found <=? start + Z.of_nat (length batch))
           || bool_decide (batch = []))).
Proof.
  intros (Hok & (kvs & ->) & Hfound & Hhits).
  unfold process_page, reported_hits, reported_found, search_failed in *.
  cbn [py_get mbind res_bind].
  apply negb_false_iff in Hok. rewrite Hok. cbn [negb].
  destruct (result_section show (JDict kvs)) as [result|]; [| done].
  destruct result as [| | | | | |r]; try done.
  cbn [py_get mbind res_bind]. rewrite Hfound, Hhits. cbn.
  do 3 f_equal. by destruct batch.
Qed.

(** Two distinct literals of the source. *)
Ltac distinct_keys := vm_compute; intros [=].

Lemma assoc_here k v rest : assoc k ((k, v) :: rest) = Some v.
Proof. simpl. by rewrite bool_decide_eq_true_2. Qed.

Lemma assoc_next k k' v rest :
  k ≠ k' → assoc k ((k', v) :: rest) = assoc k rest.
Proof. intros Hk. simpl. by rewrite bool_decide_eq_false_2. Qed.

Lemma page_payload_section show found batch :
  result_section show (page_payload show found batch)
  = Ok (JDict [ (py "found", found); (py "hit", batch) ]).
Proof.
  unfold result_section, page_payload. cbn [py_getitem].
  rewrite assoc_next by distinct_keys. rewrite assoc_here.
  cbn [mbind res_bind py_getitem]. rewrite assoc_here.
  cbn [mbind res_bind py_getitem]. by rewrite assoc_here.
Qed.

Lemma page_payload_serves show found batch :
  serves_page show (page_payload show (JInt found) (JList batch)) found batch.
Proof.
  unfold serves_page, reported_found, reported_hits.
  rewrite page_payload_section.
  split; [done |]. split; [unfold page_payload; eauto |]. split; [done |].
  rewrite assoc_next by distinct_keys. by rewrite assoc_here.
Qed.

(** ** The pagination loop *)

Section Pagination.
Context {St : Type}.
Variable search : St → request → http_outcome * St.
Variables keyword searchtype show : pystr.
Variable page_size : Z.

Abbreviation loop fuel := (fetch_loop search fuel keyword searchtype show page_size).
Abbreviation req start := (Request keyword searchtype page_size start show).

(** The three ways an iteration goes. *)
Lemma loop_raise fuel σ hits start resp σ' e :
  search σ (req start) = (resp, σ') →
  (payload ← decode resp; process_page show payload hits start) = Raise e →
  loop (S fuel) σ hits start = (Raised e, σ', [(req start, resp)]).
Proof. intros Hs Hp. cbn [fetch_loop]. by rewrite Hs, Hp. Qed.

Lemma loop_break fuel σ hits start payload σ' pg :
  search σ (req start) = (Json payload, σ') →
  process_page show payload hits start = Ok pg →
  pg_break pg = true →
  loop (S fuel) σ hits start
  = (Returned (pg_hits pg), σ', [(req start, Json payload)]).
Proof.
  intros Hs Hp Hb. cbn [fetch_loop]. rewrite Hs. cbn [decode mbind res_bind].
  by rewrite Hp, Hb.
Qed.

Lemma loop_continue fuel σ hits start payload σ' pg :
  search σ (req start) = (Json payload, σ') →
  process_page show payload hits start = Ok pg →
  pg_break pg = false →
  loop (S fuel) σ hits start
  = (let '(out, σ'', trace) := loop fuel σ' (pg_hits pg) (pg_start pg) in
     (out, σ'', (req start, Json payload) :: trace)).
Proof.
  intros Hs Hp Hb. cbn [fetch_loop]. rewrite Hs. cbn [decode mbind res_bind].
  by rewrite Hp, Hb.
Qed.

(** Only the exhausted bound ends the loop without a request. *)
Lemma loop_no_request fuel σ hits start out σ' :
  loop fuel σ hits start = (out, σ', []) → out = OutOfFuel.
Proof.
  destruct fuel as [|fuel]; cbn [fetch_loop]; [by intros [= <-] |].
  destruct (search σ _) as [resp σ1].
  destruct (_ ≫= _) as [pg|e]; [| done].
  destruct (pg_break pg); [done |].
  by destruct (fetch_loop _ _ _ _ _ _ _ _ _) as [[? ?] ?].
Qed.

(** Case analysis on one iteration. *)
Lemma loop_step fuel σ hits start out σ' trace :
  loop (S fuel) σ hits start = (out, σ', trace) →
  ∃ resp σ1,
    search σ (req start) = (resp, σ1) ∧
    ((∃ e, (payload ← decode resp; process_page show payload hits start)
             = Raise e ∧
           out = Raised e ∧ σ' = σ1 ∧ trace = [(req start, resp)])
     ∨ (∃ payload pg,
          resp = Json payload ∧
          process_page show payload hits start = Ok pg ∧
          ((pg_break pg = true ∧ out = Returned (pg_hits pg) ∧ σ' = σ1 ∧
            trace = [(req start, resp)])
           ∨ (pg_break pg = false ∧
              ∃ rest,
                loop fuel σ1 (pg_hits pg) (pg_start pg) = (out, σ', rest) ∧
                trace = (req start, resp) :: rest)))).
Proof.
  cbn [fetch_loop]. destruct (search σ _) as [resp σ1] eqn:Hs.
  intros H. exists resp, σ1. split; [done |].
  destruct (_ ≫= _) as [pg|e] eqn:Hp.
  - right. destruct resp as [| | |payload]; try done.
    cbn [decode mbind res_bind] in Hp. exists payload, pg.
    split; [done |]. split; [done |].
    destruct (pg_break pg).
    + left. by injection H as <- <- <-.
    + right. split; [done |].
      destruct (fetch_loop _ _ _ _ _ _ _ _ _) as [[out' σ''] rest].
      injection H as <- <- <-. eauto.
  - left. exists e. by injection H as <- <- <-.
Qed.

(** The offset is the number of records accumulated. *)
Lemma process_page_offset payload hits start pg :
  start = Z.of_nat (length hits) →
  process_page show payload hits start = Ok pg →
  pg_start pg = Z.of_nat (length (pg_hits pg)).
Proof.
  intros -> Hp.
  apply process_page_ok in Hp
    as (items & reached & _ & _ & _ & _ & -> & _ & -> & _).
  rewrite length_app. lia.
Qed.

(** C7: after a page processed without exception, the loop ends at that
    page exactly when the offset has reached the total or the page
    held no record; in particular a page without records that comes
    before the offset reaches the found count ends the pagination
    without error, with fewer records than the found count. *)
Theorem pagination_stops fuel σ σ' hits start payload :
  search σ (req start) = (Json payload, σ') →
  (∀ pg,
     process_page show payload hits start = Ok pg →
     pg_total pg = page_total show payload (pg_hits pg) ∧
     pg_batch pg = page_batch show payload ∧
     (loop (S fuel) σ hits start
      = (Returned (pg_hits pg), σ', [(req start, Json payload)])
      ↔ py_ge (pg_start pg) (pg_total pg) = Ok true
        ∨ py_len (pg_batch pg) = Ok 0)) ∧
  (∀ found,
     serves_page show payload found [] →
     start = Z.of_nat (length hits) →
     start < found →
     loop (S fuel) σ hits start
     = (Returned hits, σ', [(req start, Json payload)]) ∧
     Z.of_nat (length hits) < found).
Proof.
  intros Hs. split.
  - intros pg Hp.
    destruct (process_page_ok _ _ _ _ _ Hp)
      as (items & reached & _ & _ & Hbatch & Hiter & Hhits & Htotal
          & Hstart & Hge & Hbreak).
    split; [by rewrite Htotal, Hhits |]. split; [done |].
    rewrite (py_iter_len _ _ Hiter), Hge. split.
    + destruct (pg_break pg) eqn:Hb.
      * intros _. symmetry in Hbreak.
        apply orb_true_iff in Hbreak as [-> | Hnil]; [by left | right].
        apply bool_decide_eq_true in Hnil. by rewrite Hnil.
      * rewrite (loop_continue fuel _ _ _ _ _ _ Hs Hp Hb).
        destruct (fetch_loop _ _ _ _ _ _ _ _ _) as [[out σ''] rest] eqn:Hl.
        intros [= -> -> ->]. by apply loop_no_request in Hl.
    + intros Hcond. apply loop_break; [done .. |].
      rewrite Hbreak. destruct Hcond as [[= ->] | [= Hlen]]; [done |].
      destruct items; [| done]. by rewrite orb_true_r.
  - intros found Hpage -> Hlt. split; [| done].
    pose proof (process_page_serves _ _ _ _ hits (Z.of_nat (length hits))
                  Hpage) as Hp.
    rewrite (loop_break fuel _ _ _ _ _ _ Hs Hp); [| by rewrite orb_true_r].
    cbn. by rewrite app_nil_r.
Qed.

Lemma last_cons_some {A} (x : A) l y : last l = Some y → last (x :: l) = Some y.
Proof. intros Hl. rewrite last_cons. by rewrite Hl. Qed.

(** A run that returns ended on a page at which the records
    accumulated had reached the total, or on an empty page. *)
Lemma loop_returned fuel σ hits start hits' σ' trace :
  start = Z.of_nat (length hits) →
  loop fuel σ hits start = (Returned hits', σ', trace) →
  ∃ rq payload,
    last trace = Some (rq, Json payload) ∧
    search_failed payload = false ∧
    (py_ge (Z.of_nat (length hits')) (page_total show payload hits')
       = Ok true
     ∨ py_len (page_batch show payload) = Ok 0).
Proof.
  revert σ hits start trace.
  induction fuel as [|fuel IH]; intros σ hits start trace Hinv Hl.
  { discriminate. }
  apply loop_step in Hl as (resp & σ1 & Hs & Hcases).
  destruct Hcases as [(e & _ & [=] & _) | (payload & pg & -> & Hp & Hcases)].
  pose proof (process_page_offset _ _ _ _ Hinv Hp) as Hoff.
  destruct Hcases as [(Hb & [= ->] & -> & ->) | (Hb & rest & Hrest & ->)].
  - exists (req start), payload. split; [done |].
    destruct (process_page_ok _ _ _ _ _ Hp)
      as (items & reached & Hok & _ & Hbatch & Hiter & Hhits & Htotal
          & _ & Hge & Hbreak).
    split; [done |].
    rewrite <- Hhits in Htotal.
    rewrite <- Hbatch, (py_iter_len _ _ Hiter), <- Htotal, <- Hoff, Hge.
    rewrite Hbreak in Hb. apply orb_true_iff in Hb as [-> | Hnil]; [by left |].
    right. apply bool_decide_eq_true in Hnil. by rewrite Hnil.
  - destruct (IH _ _ _ _ Hoff Hrest) as (rq & payload' & Hlast & Hrest').
    exists rq, payload'. split; [by apply last_cons_some | done].
Qed.

(** C1, amended: when a run of [fetch_exhibitors] returns, the last
    response was a successful one, and the number of records returned
    is at least the total taken from it (its found count, or the number
    of records accumulated when it has none), or that last page held no
    record. *)
Theorem fetched_reaches_total fuel σ hits σ' trace :
  fetch_exhibitors search fuel σ keyword page_size searchtype show
  = (Returned hits, σ', trace) →
  ∃ rq payload,
    last trace = Some (rq, Json payload) ∧
    search_failed payload = false ∧
    (py_ge (Z.of_nat (length hits)) (page_total show payload hits) = Ok true
     ∨ py_len (page_batch show payload) = Ok 0).
Proof. by apply loop_returned. Qed.

(** A response with a false success flag ends the run, with the error
    that carries it. *)
Lemma loop_failed fuel σ hits start out σ' trace rq payload :
  loop fuel σ hits start = (out, σ', trace) →
  (rq, Json payload) ∈ trace →
  search_failed payload = true →
  out = Raised (RuntimeError payload) ∧
  last trace = Some (rq, Json payload).
Proof.
  revert σ hits start trace.
  induction fuel as [|fuel IH]; intros σ hits start trace Hl Hin Hfailed.
  { injection Hl as <- <- <-. by apply elem_of_nil in Hin. }
  pose proof (process_page_failed show payload) as Hraise.
  apply loop_step in Hl as (resp & σ1 & Hs & Hcases).
  destruct Hcases as [(e & He & -> & -> & ->) | (payload' & pg & -> & Hp & Hcases)].
  - apply list_elem_of_singleton in Hin as [= <- <-].
    cbn [decode mbind res_bind] in He. rewrite Hraise in He by done.
    by injection He as <-.
  - assert ((rq, Json payload) ≠ (req start, Json payload')) as Hne.
    { intros [= -> ->]. rewrite Hraise in Hp; done. }
    destruct Hcases as [(_ & _ & _ & ->) | (_ & rest & Hrest & ->)].
    + by apply list_elem_of_singleton in Hin.
    + apply elem_of_cons in Hin as [Heq | Hin]; [done |].
      destruct (IH _ _ _ _ Hrest Hin Hfailed) as [-> Hlast].
      split; [done | by apply last_cons_some].
Qed.

(** *** A results section without found count *)

Lemma process_page_omits payload hits start :
  omits_found show payload →
  start = Z.of_nat (length hits) →
  ∃ pg,
    process_page show payload hits start = Ok pg ∧
    pg_total pg = JInt (Z.of_nat (length (pg_hits pg))) ∧
    pg_start pg = Z.of_nat (length (pg_hits pg)) ∧
    pg_break pg = true.
Proof.
  intros (Hok & (r & Hr) & Hfound & (items & Hiter)) ->.
  destruct (result_section_dict _ _ _ Hr) as (kvs & ->).
  unfold process_page, page_batch, reported_hits, reported_found,
    search_failed in *.
  rewrite Hr in *. cbn [py_get mbind res_bind].
  apply negb_false_iff in Hok. rewrite Hok, Hfound. cbn [negb default].
  rewrite Hiter. cbn [mbind res_bind]. rewrite (py_iter_len _ _ Hiter).
  cbn [mbind res_bind py_ge]. eexists. split; [done |]. cbn.
  rewrite length_app, Nat2Z.inj_add. split; [done |]. split; [done |].
  apply orb_true_iff. left. lia.
Qed.

Lemma loop_omits fuel σ hits start out σ' trace rq payload :
  start = Z.of_nat (length hits) →
  loop fuel σ hits start = (out, σ', trace) →
  (rq, Json payload) ∈ trace →
  omits_found show payload →
  (∃ hits', out = Returned hits') ∧ last trace = Some (rq, Json payload).
Proof.
  revert σ hits start trace.
  induction fuel as [|fuel IH]; intros σ hits start trace Hinv Hl Hin Homits.
  { injection Hl as <- <- <-. by apply elem_of_nil in Hin. }
  apply loop_step in Hl as (resp & σ1 & Hs & Hcases).
  assert (∀ payload' pg,
            (rq, Json payload) = (req start, Json payload') →
            process_page show payload' hits start = Ok pg →
            pg_break pg = true) as Hhere.
  { intros payload' pg [= -> <-] Hp.
    destruct (process_page_omits payload hits _ Homits Hinv)
      as (pg' & Hp' & _ & _ & Hb).
    rewrite Hp in Hp'. by injection Hp' as ->. }
  destruct Hcases as [(e & He & -> & -> & ->) | (payload' & pg & -> & Hp & Hcases)].
  - apply list_elem_of_singleton in Hin as [= -> <-].
    destruct (process_page_omits payload hits _ Homits Hinv)
      as (pg' & Hp' & _).
    cbn [decode mbind res_bind] in He. by rewrite Hp' in He.
  - destruct Hcases as [(_ & -> & _ & ->) | (Hb & rest & Hrest & ->)].
    + apply list_elem_of_singleton in Hin as ->. eauto.
    + apply elem_of_cons in Hin as [Heq | Hin].
      { by rewrite (Hhere _ _ Heq Hp) in Hb. }
      destruct (IH _ _ _ _ (process_page_offset _ _ _ _ Hinv Hp) Hrest Hin
                  Homits) as [Hout Hlast].
      split; [done | by apply last_cons_some].
Qed.

(** C10: a successful response whose results section has no found count
    gives a total equal to the number of records accumulated, which the
    offset equals, so the [break] is taken; and a run of
    [fetch_exhibitors] that receives such a response returns after it,
    without error. *)
Theorem missing_found_ends_pagination :
  (∀ payload hits start,
     omits_found show payload →
     start = Z.of_nat (length hits) →
     ∃ pg,
       process_page show payload hits start = Ok pg ∧
       pg_total pg = JInt (Z.of_nat (length (pg_hits pg))) ∧
       pg_start pg = Z.of_nat (length (pg_hits pg)) ∧
       pg_break pg = true) ∧
  (∀ fuel σ out σ' trace i rq payload,
     fetch_exhibitors search fuel σ keyword page_size searchtype show
     = (out, σ', trace) →
     trace !! i = Some (rq, Json payload) →
     omits_found show payload →
     (∃ hits, out = Returned hits) ∧
     last trace = Some (rq, Json payload)).
Proof.
  split; [apply process_page_omits |].
  intros fuel σ out σ' trace i rq payload Hrun Hi Homits.
  apply list_elem_of_lookup_2 in Hi. by eapply (loop_omits fuel σ [] 0).
Qed.

(** *** Responses that lack a part *)

Lemma result_section_raise kvs e :
  result_section show (JDict kvs) = Raise e →
  e = TypeError ∨ ∃ k, e = KeyError k ∧ k ∈ [py "DATA"; py "results"; show].
Proof.
  unfold result_section. cbn [py_getitem].
  destruct (assoc (py "DATA") kvs) as [data|];
    [| intros [= <-]; right; eexists; split; [done | set_solver] ].
  cbn [mbind res_bind].
  destruct data as [| | | | | |dkvs]; try (intros [= <-]; by left).
  cbn [py_getitem].
  destruct (assoc (py "results") dkvs) as [results|];
    [| intros [= <-]; right; eexists; split; [done | set_solver] ].
  cbn [mbind res_bind].
  destruct results as [| | | | | |rkvs]; try (intros [= <-]; by left).
  cbn [py_getitem].
  destruct (assoc show rkvs) as [result|];
    [done | intros [= <-]; right; eexists; split; [done | set_solver] ].
Qed.

(** C9, amended: a successful response that lacks the [DATA] object,
    its [results] object or the section asked for ends the run with a
    [KeyError] naming the missing key (a [TypeError] when one of them
    is not an object), which does not carry the payload; a results
    section without hit list is an empty page and one without found
    count takes the number of records accumulated as its total, and
    neither raises. *)
Theorem missing_structure fuel σ σ' hits start kvs :
  search σ (req start) = (Json (JDict kvs), σ') →
  search_failed (JDict kvs) = false →
  (∀ e,
     result_section show (JDict kvs) = Raise e →
     loop (S fuel) σ hits start
     = (Raised e, σ', [(req start, Json (JDict kvs))]) ∧
     (e = TypeError
      ∨ ∃ k, e = KeyError k ∧ k ∈ [py "DATA"; py "results"; show])) ∧
  (∀ r,
     result_section show (JDict kvs) = Ok (JDict r) →
     assoc (py "hit") r = None →
     assoc (py "found") r = None ∨ (∃ n, assoc (py "found") r = Some (JInt n)) →
     loop (S fuel) σ hits start
     = (Returned hits, σ', [(req start, Json (JDict kvs))])) ∧
  (∀ r items,
     result_section show (JDict kvs) = Ok (JDict r) →
     assoc (py "found") r = None →
     assoc (py "hit") r = Some (JList items) →
     start = Z.of_nat (length hits) →
     loop (S fuel) σ hits start
     = (Returned (hits ++ items), σ', [(req start, Json (JDict kvs))])).
Proof.
  intros Hs Hok. unfold search_failed in Hok. apply negb_false_iff in Hok.
  assert (process_page show (JDict kvs) hits start
          = (result ← result_section show (JDict kvs);
               batch ← py_get result (py "hit") (JList []);
               items ← py_iter batch;
               total ← py_get result (py "found")
                         (JInt (Z.of_nat (length (hits ++ items))));
               n ← py_len batch;
               reached ← py_ge (start + n) total;
               Ok (PageState (hits ++ items) batch total (start + n)
                     (reached || negb (truthy batch))))) as Hbody.
  { unfold process_page. cbn [py_get mbind res_bind]. by rewrite Hok. }
  split; [| split].
  - intros e He. split; [| by apply (result_section_raise kvs)].
    apply loop_raise; [done |]. cbn [decode mbind res_bind].
    by rewrite Hbody, He.
  - intros r Hr Hhit Hfound.
    assert (∃ pg, process_page show (JDict kvs) hits start = Ok pg ∧
                  pg_hits pg = hits ∧ pg_break pg = true)
      as (pg & Hp & Hhits & Hb).
    { rewrite Hbody, Hr. cbn [mbind res_bind py_get]. rewrite Hhit.
      cbn [default py_iter mbind res_bind py_len].
      destruct Hfound as [-> | [n ->]]; cbn [default py_ge mbind res_bind];
        eexists; (split; [reflexivity |]); cbn;
        rewrite app_nil_r, orb_true_r; split; reflexivity. }
    rewrite (loop_break fuel _ _ _ _ _ _ Hs Hp Hb). by rewrite Hhits.
  - intros r items Hr Hfound Hhit ->.
    assert (∃ pg, process_page show (JDict kvs) hits
                    (Z.of_nat (length hits)) = Ok pg ∧
                  pg_hits pg = hits ++ items ∧ pg_break pg = true)
      as (pg & Hp & Hhits & Hb).
    { rewrite Hbody, Hr. cbn [mbind res_bind py_get]. rewrite Hhit, Hfound.
      cbn [default py_iter mbind res_bind py_len py_ge].
      eexists. split; [done |]. cbn. split; [done |].
      apply orb_true_iff. left. apply Z.leb_le. rewrite length_app. lia. }
    rewrite (loop_break fuel _ _ _ _ _ _ Hs Hp Hb). by rewrite Hhits.
Qed.

(** *** A well-behaved server *)

Lemma ceil_div_small a d : 0 < d → a ≤ d → ceil_div a d ≤ 1.
Proof.
  intros Hd Ha. unfold ceil_div.
  enough ((a + d - 1) / d < 2) by lia.
  apply Z.div_lt_upper_bound; lia.
Qed.

Lemma ceil_div_step a d : 0 < d → ceil_div a d = ceil_div (a - d) d + 1.
Proof.
  intros Hd. unfold ceil_div.
  replace (a + d - 1) with ((a - d + d - 1) + 1 * d) by lia.
  rewrite Z.div_add by lia. done.
Qed.

Lemma ceil_div_pos a d : 0 < d → 0 < a → 1 ≤ ceil_div a d.
Proof.
  intros Hd Ha. unfold ceil_div. apply Z.div_le_lower_bound; lia.
Qed.

(** From the offset [s], the loop collects the rest of the records, a
    page at a time. *)
Lemma loop_well_behaved records fuel σ (s : nat) :
  well_behaved search records →
  0 < page_size →
  (s < length records ∨ length records = 0)%nat →
  Z.max 1 (ceil_div (Z.of_nat (length records - s)) page_size)
    ≤ Z.of_nat fuel →
  ∃ σ' trace,
    loop fuel σ (take s records) (Z.of_nat s) = (Returned records, σ', trace) ∧
    Z.of_nat (length trace)
    = Z.max 1 (ceil_div (Z.of_nat (length records - s)) page_size).
Proof.
  intros Hserver Hsize. revert σ s.
  induction fuel as [|fuel IH]; intros σ s Hs Hfuel; [lia |].
  destruct (Hserver σ (req (Z.of_nat s))) as (payload & Hresp & Hpage).
  destruct (search σ (req (Z.of_nat s))) as [resp σ1] eqn:Hsearch.
  simpl in Hresp, Hpage. subst resp.
  pose proof (process_page_serves _ _ _ _ (take s records) (Z.of_nat s) Hpage)
    as Hp.
  unfold slice in Hp. rewrite Nat2Z.id, take_take_drop in Hp.
  set (n := length records) in *. set (p := Z.to_nat page_size) in *.
  assert (length (take p (drop s records)) = Nat.min p (n - s)) as Hlen
    by (by rewrite length_take, length_drop).
  rewrite Hlen in Hp.
  destruct (decide (n - s ≤ p)%nat) as [Hlast | Hmore].
  - (* the last page *)
    rewrite (take_ge records (s + p)) in Hp by (fold n; lia).
    exists σ1, [(req (Z.of_nat s), Json payload)].
    split.
    + apply (loop_break fuel _ _ _ _ _ _ Hsearch Hp). cbn.
      apply orb_true_iff. left. apply Z.leb_le. lia.
    + pose proof (ceil_div_small (Z.of_nat (n - s)) page_size Hsize).
      cbn [length]. lia.
  - (* a full page, and more to come *)
    assert (Nat.min p (n - s) = p) as Hmin by lia. rewrite Hmin in Hp.
    assert (take p (drop s records) ≠ []) as Hne.
    { intros Hnil. rewrite Hnil in Hlen. simpl in Hlen. lia. }
    pose proof (ceil_div_step (Z.of_nat (n - s)) page_size Hsize) as Hstep.
    replace (Z.of_nat (n - s) - page_size) with (Z.of_nat (n - (s + p)))
      in Hstep by lia.
    pose proof (ceil_div_pos (Z.of_nat (n - (s + p))) page_size Hsize) as Hpos.
    destruct (IH σ1 (s + p)%nat) as (σ' & trace & Hloop & Htrace);
      [lia | fold n; lia |].
    exists σ', ((req (Z.of_nat s), Json payload) :: trace). split.
    + rewrite (loop_continue fuel _ _ _ _ _ _ Hsearch Hp).
      * cbn [pg_hits pg_start].
        replace (Z.of_nat s + Z.of_nat p) with (Z.of_nat (s + p)) by lia.
        by rewrite Hloop.
      * cbn. apply orb_false_iff. split; [apply Z.leb_gt; lia |].
        by apply bool_decide_eq_false.
    + cbn [length]. fold n in Htrace. lia.
Qed.

(** C4, amended: from a well-behaved server holding N records,
    [fetch_exhibitors] with a positive page size returns exactly the N
    records and issues exactly max(1, ceil(N / page_size)) search
    requests: one request when N = 0. *)
Theorem fetch_well_behaved records fuel σ :
  well_behaved search records →
  0 < page_size →
  Z.max 1 (ceil_div (Z.of_nat (length records)) page_size) ≤ Z.of_nat fuel →
  ∃ σ' trace,
    fetch_exhibitors search fuel σ keyword page_size searchtype show
    = (Returned records, σ', trace) ∧
    Z.of_nat (length trace)
    = Z.max 1 (ceil_div (Z.of_nat (length records)) page_size).
Proof.
  intros Hserver Hsize Hfuel.
  destruct (loop_well_behaved records fuel σ 0 Hserver Hsize)
    as (σ' & trace & Hloop & Htrace).
  - lia.
  - by rewrite Nat.sub_0_r.
  - rewrite Nat.sub_0_r in Htrace. by exists σ', trace.
Qed.
End Pagination.

(** ** The program *)

Section Program.
Context {St : Type}.
Variable home : St → bool * St.
Variable search : St → request → http_outcome * St.
Variable writable : pystr → bool.

Lemma read_keyword_world args (w : world St) r w' :
  read_keyword args w = (r, w') →
  w_server w' = w_server w ∧ w_files w' = w_files w ∧
  w_requests w' = w_requests w.
Proof.
  unfold read_keyword.
  destruct (ns_keyword args) as [[|c k]|];
    try destruct (w_stdin w); by intros [= <- <-].
Qed.

(** What [main] leaves behind when the search does not return: the
    files as they were, and the requests of the search. *)
Lemma main_search_failed fuel args (w : world St) out w' :
  main home search writable fuel args w = (out, w') →
  (w_requests w' = w_requests w ∧ w_files w' = w_files w ∧
   ∃ e, out = Raised e) ∨
  (∃ keyword searchtype σ fetched σ' trace,
     fetch_exhibitors search fuel σ keyword (ns_page_size args) searchtype
       (ns_show args) = (fetched, σ', trace) ∧
     w_requests w' = w_requests w ++ trace ∧
     ((∃ hits, fetched = Returned hits) ∨
      (w_files w' = w_files w ∧
       match fetched with
       | Returned _ => False
       | Raised e => out = Raised e
       | OutOfFuel => out = OutOfFuel
       end))).
Proof.
  unfold main.
  destruct (read_keyword args w) as [[keyword|e] w1] eqn:Hk;
    apply read_keyword_world in Hk as (Hserver & Hfiles & Hrequests);
    [| intros [= <- <-]; left; eauto ].
  destruct keyword as [|c keyword]; [intros [= <- <-]; left; eauto |].
  destruct (bootstrap_session home (w_server w1)) as [[[]|e] σ];
    [| intros [= <- <-]; left; eauto ].
  cbn [w_files w_requests w_stdin w_stdout w_server].
  destruct (fetch_exhibitors _ _ _ _ _ _ _) as [[fetched σ'] trace] eqn:Hf.
  intros Hmain. right.
  exists (c :: keyword), (py "keyword"), σ, fetched, σ', trace.
  split; [done |].
  destruct fetched as [hits|e|].
  - cbn [w_files w_requests w_stdin w_stdout w_server] in Hmain.
    destruct (traverse hit_to_row hits) as [rows|e];
      [| injection Hmain as <- <-; rewrite Hrequests; eauto ].
    destruct (write_csv _ _ _ _) as [[[]|e] files];
      injection Hmain as <- <-; rewrite Hrequests; eauto.
  - injection Hmain as <- <-. rewrite Hrequests, Hfiles. eauto.
  - injection Hmain as <- <-. rewrite Hrequests, Hfiles. eauto.
Qed.

(** C6: a search response with a false success flag is fatal.
    [fetch_exhibitors] raises the error carrying that response instead
    of returning records, and issues no request after it; [main] ends
    with that error and leaves the files as they were. *)
Theorem failed_search_is_fatal :
  (∀ fuel σ keyword page_size searchtype show out σ' trace i rq payload,
     fetch_exhibitors search fuel σ keyword page_size searchtype show
     = (out, σ', trace) →
     trace !! i = Some (rq, Json payload) →
     search_failed payload = true →
     out = Raised (RuntimeError payload) ∧
     last trace = Some (rq, Json payload)) ∧
  (∀ fuel args (w : world St) out w' i rq payload,
     main home search writable fuel args w = (out, w') →
     w_requests w = [] →
     w_requests w' !! i = Some (rq, Json payload) →
     search_failed payload = true →
     out = Raised (RuntimeError payload) ∧
     last (w_requests w') = Some (rq, Json payload) ∧
     w_files w' = w_files w).
Proof.
  split.
  - intros fuel σ keyword page_size searchtype show out σ' trace i rq payload
      Hrun Hi Hfailed.
    apply list_elem_of_lookup_2 in Hi.
    by apply (loop_failed search keyword searchtype show page_size fuel σ [] 0
                out σ' trace rq payload).
  - intros fuel args w out w' i rq payload Hmain Hfresh Hi Hfailed.
    apply main_search_failed in Hmain
      as [(Hrequests & _) | (keyword & searchtype & σ & fetched & σ' & trace
                             & Hrun & Hrequests & Hcases)].
    { by rewrite Hrequests, Hfresh in Hi. }
    rewrite Hrequests, Hfresh in *. cbn [app] in *.
    apply list_elem_of_lookup_2 in Hi.
    destruct (loop_failed search _ _ _ _ _ _ _ _ _ _ _ _ _ Hrun Hi Hfailed)
      as [-> Hlast].
    destruct Hcases as [(hits & [=]) | (Hfiles & Hout)]. done.
Qed.
End Program.

(** ** Runs against sample servers *)

Lemma honest_server_well_behaved records :
  well_behaved (honest_server records) records.
Proof.
  intros σ rq. eexists. split; [done |]. apply page_payload_serves.
Qed.

(** The scenario of two pages, of sizes 2 and 1, for a found count of 3:
    three data rows under the header. *)
Example two_pages_three_rows :
  let '(out, w) :=
    main always_home (honest_server three_records) any_path 5 sample_args
      (fresh_world ()) in
  out = Returned () ∧
  w_requests w
  = [ (sample_request 0,
       Json (page_payload exhibitor (JInt 3) (JList (take 2 three_records))));
      (sample_request 2,
       Json (page_payload exhibitor (JInt 3) (JList (drop 2 three_records)))) ] ∧
  (file ← w_files w !! py "exhibitors_ai.csv";
   Some (csv_header file, length (csv_rows file)))
  = Some (fieldnames, 3%nat).
Proof. vm_compute. done. Qed.

(** C1, as stated: when a run returns, the number of records equals the
    found count of the last response, or the last page held no record.
    It fails on a server whose page holds more records than the found
    count it reports: the loop ends because the offset exceeds the count. *)
Lemma fetched_may_exceed_found :
  ¬ (∀ (search : unit → request → http_outcome * unit) fuel σ keyword
       page_size searchtype show hits σ' trace,
       fetch_exhibitors search fuel σ keyword page_size searchtype show
       = (Returned hits, σ', trace) →
       ∃ rq payload,
         last trace = Some (rq, Json payload) ∧
         ((∃ found, reported_found show payload = Some found ∧
                    py_eq_int (Z.of_nat (length hits)) found = true)
          ∨ py_len (page_batch show payload) = Ok 0)).
Proof.
  intros H.
  edestruct (H (constant_server
                  (Json (page_payload exhibitor (JInt 1)
                           (JList (take 2 three_records)))))
               1%nat () (py "ai") 2 (py "keyword") exhibitor)
    as (rq & payload & Hlast & Hcases); [vm_compute; reflexivity |].
  vm_compute in Hlast. injection Hlast as <- <-.
  destruct Hcases as [(found & Hfound & Heq) | Hlen].
  - vm_compute in Hfound. injection Hfound as <-. vm_compute in Heq.
    discriminate.
  - vm_compute in Hlen. discriminate.
Qed.

Lemma fetched_reaches_total_witness :
  fetch_exhibitors (honest_server three_records) 5 () (py "ai") 2
    (py "keyword") exhibitor
  = (Returned three_records, (),
     [ (sample_request 0,
        Json (page_payload exhibitor (JInt 3) (JList (take 2 three_records))));
       (sample_request 2,
        Json (page_payload exhibitor (JInt 3) (JList (drop 2 three_records)))) ])
  ∧ ∃ rq payload,
      last [ (sample_request 0,
              Json (page_payload exhibitor (JInt 3)
                      (JList (take 2 three_records))));
             (sample_request 2,
              Json (page_payload exhibitor (JInt 3)
                      (JList (drop 2 three_records)))) ]
      = Some (rq, Json payload) ∧
      search_failed payload = false ∧
      (py_ge (Z.of_nat (length three_records))
         (page_total exhibitor payload three_records) = Ok true
       ∨ py_len (page_batch exhibitor payload) = Ok 0).
Proof.
  split; [reflexivity |].
  apply (fetched_reaches_total (honest_server three_records) (py "ai")
           (py "keyword") exhibitor 2 5 () three_records ()).
  reflexivity.
Defined.

(** C4, as stated: ceil(N / page_size) requests, none for N = 0. It
    fails for N = 0: the loop asks before it tests, so a server without
    records is asked once. *)
Lemma empty_result_takes_a_request :
  ¬ (∀ (search : unit → request → http_outcome * unit) records fuel σ
       keyword page_size searchtype show,
       well_behaved search records →
       0 < page_size →
       ceil_div (Z.of_nat (length records)) page_size ≤ Z.of_nat fuel →
       ∃ σ' trace,
         fetch_exhibitors search fuel σ keyword page_size searchtype show
         = (Returned records, σ', trace) ∧
         Z.of_nat (length trace)
         = ceil_div (Z.of_nat (length records)) page_size).
Proof.
  intros H.
  destruct (H (honest_server []) [] 5%nat () (py "ai") 200 (py "keyword")
              exhibitor (honest_server_well_behaved []))
    as (σ' & trace & Hrun & Hcount); [done | by vm_compute |].
  vm_compute in Hrun. injection Hrun as <- <-. vm_compute in Hcount.
  discriminate.
Qed.

Example empty_result_one_request :
  fetch_exhibitors (honest_server []) 5 () (py "ai") 200 (py "keyword")
    exhibitor
  = (Returned [], (),
     [ (Request (py "ai") (py "keyword") 200 0 exhibitor,
        Json (page_payload exhibitor (JInt 0) (JList []))) ]).
Proof. reflexivity. Qed.

Lemma fetch_well_behaved_witness :
  well_behaved (honest_server three_records) three_records ∧
  0 < 2 ∧
  Z.max 1 (ceil_div 3 2) ≤ 2 ∧
  ∃ σ' trace,
    fetch_exhibitors (honest_server three_records) 2 () (py "ai") 2
      (py "keyword") exhibitor
    = (Returned three_records, σ', trace) ∧
    Z.of_nat (length trace) = Z.max 1 (ceil_div 3 2).
Proof.
  split; [apply honest_server_well_behaved |].
  split; [lia |]. split; [by vm_compute |].
  apply (fetch_well_behaved (honest_server three_records) (py "ai")
           (py "keyword") exhibitor 2 three_records 2 ()).
  - apply honest_server_well_behaved.
  - lia.
  - by vm_compute.
Defined.

Example failing_search_run :
  main always_home scripted_server any_path 5 sample_args
    (fresh_world failing_script)
  = (Raised (RuntimeError failed_payload),
     World [] ∅ [] []
       [ (sample_request 0,
          Json (page_payload exhibitor (JInt 3) (JList (take 2 three_records))));
         (sample_request 2, Json failed_payload) ]).
Proof. reflexivity. Qed.

Lemma failed_search_is_fatal_witness :
  (fetch_exhibitors scripted_server 5 failing_script (py "ai") 2 (py "keyword")
     exhibitor).1.1
  = Raised (RuntimeError failed_payload) ∧
  (main always_home scripted_server any_path 5 sample_args
     (fresh_world failing_script)).1
  = Raised (RuntimeError failed_payload) ∧
  w_files (main always_home scripted_server any_path 5 sample_args
             (fresh_world failing_script)).2
  = ∅.
Proof.
  destruct (failed_search_is_fatal always_home scripted_server any_path)
    as [Hfetch Hmain].
  set (run := fetch_exhibitors scripted_server 5 failing_script (py "ai") 2
                (py "keyword") exhibitor).
  set (whole := main always_home scripted_server any_path 5 sample_args
                  (fresh_world failing_script)).
  destruct (Hfetch 5%nat failing_script (py "ai") 2 (py "keyword") exhibitor
              run.1.1 run.1.2 run.2 1%nat (sample_request 2) failed_payload
              eq_refl eq_refl eq_refl) as [Hraised _].
  destruct (Hmain 5%nat sample_args (fresh_world failing_script)
              whole.1 whole.2 1%nat (sample_request 2) failed_payload
              eq_refl eq_refl eq_refl eq_refl) as (Hout & _ & Hfiles).
  split; [exact Hraised |]. split; [exact Hout | exact Hfiles].
Defined.

Lemma pagination_stops_witness :
  fetch_loop
    (constant_server (Json (page_payload exhibitor (JInt 5) (JList []))))
    1 (py "ai") (py "keyword") exhibitor 2 () (take 2 three_records) 2
  = (Returned (take 2 three_records), (),
     [ (sample_request 2, Json (page_payload exhibitor (JInt 5) (JList []))) ])
  ∧ Z.of_nat (length (take 2 three_records)) < 5.
Proof.
  apply (pagination_stops
           (constant_server (Json (page_payload exhibitor (JInt 5) (JList []))))
           (py "ai") (py "keyword") exhibitor 2 0 () () (take 2 three_records)
           2 (page_payload exhibitor (JInt 5) (JList [])) eq_refl).
  - apply page_payload_serves.
  - reflexivity.
  - lia.
Defined.

(** A page that stops the loop and a page that does not. *)
Example break_on_reached_total :
  (pg ← process_page exhibitor
          (page_payload exhibitor (JInt 3) (JList (drop 2 three_records)))
          (take 2 three_records) 2;
   Ok (pg_start pg, pg_break pg))
  = Ok (3, true) ∧
  (pg ← process_page exhibitor
          (page_payload exhibitor (JInt 3) (JList (take 2 three_records)))
          [] 0;
   Ok (pg_start pg, pg_break pg))
  = Ok (2, false).
Proof. split; reflexivity. Qed.

(** A hit list that cannot be iterated raises, found count or not. *)
Example hit_list_not_iterable :
  process_page exhibitor
    (JDict [ (py "SUCCESS", JBool true);
             (py "DATA",
              JDict [ (py "results",
                       JDict [ (exhibitor,
                                JDict [ (py "hit", JInt 5) ]) ]) ]) ])
    [] 0
  = Raise TypeError.
Proof. reflexivity. Qed.

(** C9, as stated: a response that lacks the hit list or the found count
    makes fetching fail. It does not: both are read with a default, and
    a results section with neither is an empty last page. *)
Lemma missing_fields_are_defaulted :
  ¬ (∀ (search : unit → request → http_outcome * unit) fuel σ keyword
       page_size searchtype show out σ' trace i rq payload,
       fetch_exhibitors search fuel σ keyword page_size searchtype show
       = (out, σ', trace) →
       trace !! i = Some (rq, Json payload) →
       reported_hits show payload = None ∨ reported_found show payload = None →
       ∃ e, out = Raised e).
Proof.
  intros H.
  destruct (H (constant_server (Json bare_payload)) 5%nat () (py "ai") 2
              (py "keyword") exhibitor (Returned []) ()
              [ (sample_request 0, Json bare_payload) ] 0%nat
              (sample_request 0) bare_payload eq_refl eq_refl
              (or_introl eq_refl)) as (e & He).
  discriminate.
Qed.

Example bare_payload_run :
  fetch_exhibitors (constant_server (Json bare_payload)) 5 () (py "ai") 2
    (py "keyword") exhibitor
  = (Returned [], (), [ (sample_request 0, Json bare_payload) ]).
Proof. reflexivity. Qed.

Lemma missing_structure_witness :
  fetch_loop (constant_server (Json dataless_payload)) 1 (py "ai")
    (py "keyword") exhibitor 2 () [] 0
  = (Raised (KeyError (py "DATA")), (),
     [ (sample_request 0, Json dataless_payload) ]) ∧
  fetch_loop (constant_server (Json bare_payload)) 1 (py "ai")
    (py "keyword") exhibitor 2 () [] 0
  = (Returned [], (), [ (sample_request 0, Json bare_payload) ]) ∧
  fetch_loop (constant_server (Json countless_payload)) 1 (py "ai")
    (py "keyword") exhibitor 2 () [] 0
  = (Returned ([] ++ take 2 three_records), (),
     [ (sample_request 0, Json countless_payload) ]).
Proof.
  split; [| split].
  - destruct (missing_structure (constant_server (Json dataless_payload))
                (py "ai") (py "keyword") exhibitor 2 0 () () [] 0
                [ (py "SUCCESS", JBool true) ] eq_refl eq_refl)
      as (Hraise & _).
    exact (proj1 (Hraise (KeyError (py "DATA")) eq_refl)).
  - destruct (missing_structure (constant_server (Json bare_payload))
                (py "ai") (py "keyword") exhibitor 2 0 () () [] 0
                _ eq_refl eq_refl) as (_ & Hbare & _).
    exact (Hbare [] eq_refl eq_refl (or_introl eq_refl)).
  - destruct (missing_structure (constant_server (Json countless_payload))
                (py "ai") (py "keyword") exhibitor 2 0 () () [] 0
                _ eq_refl eq_refl) as (_ & _ & Hcount).
    exact (Hcount _ (take 2 three_records) eq_refl eq_refl eq_refl eq_refl).
Defined.

Lemma missing_found_ends_pagination_witness :
  (fetch_exhibitors (constant_server (Json countless_payload)) 5 ()
     (py "ai") 2 (py "keyword") exhibitor).1.1
  = Returned (take 2 three_records) ∧
  (∃ hits,
     (fetch_exhibitors (constant_server (Json countless_payload)) 5 ()
        (py "ai") 2 (py "keyword") exhibitor).1.1
     = Returned hits) ∧
  ∃ pg,
    process_page exhibitor countless_payload [] 0 = Ok pg ∧
    pg_total pg = JInt (Z.of_nat (length (pg_hits pg))) ∧
    pg_start pg = Z.of_nat (length (pg_hits pg)) ∧
    pg_break pg = true.
Proof.
  assert (omits_found exhibitor countless_payload) as Homits.
  { split; [reflexivity |]. split; [eexists; reflexivity |].
    split; [reflexivity | eexists; reflexivity]. }
  destruct (missing_found_ends_pagination
              (constant_server (Json countless_payload)) (py "ai")
              (py "keyword") exhibitor 2) as [Hpage Hrun].
  set (run := fetch_exhibitors (constant_server (Json countless_payload)) 5 ()
                (py "ai") 2 (py "keyword") exhibitor).
  split; [reflexivity |]. split.
  - exact (proj1 (Hrun 5%nat () run.1.1 run.1.2 run.2 0%nat (sample_request 0)
                    countless_payload eq_refl eq_refl Homits)).
  - exact (Hpage countless_payload [] 0 Homits eq_refl).
Defined.

(** * Further properties of the pagination loop *)

Section Traces.
Context {St : Type}.
Variable search : St → request → http_outcome * St.
Variables keyword searchtype show : pystr.
Variable page_size : Z.

Abbreviation run fuel := (fetch_loop search fuel keyword searchtype show page_size).
Abbreviation ask start := (Request keyword searchtype page_size start show).

Lemma process_page_items payload hits start pg :
  process_page show payload hits start = Ok pg →
  pg_hits pg = hits ++ page_items show (Json payload) ∧
  pg_start pg = start + Z.of_nat (length (page_items show (Json payload))) ∧
  (pg_break pg = false → page_items show (Json payload) ≠ []).
Proof.
  intros Hp.
  destruct (process_page_ok _ _ _ _ _ Hp)
    as (items & reached & _ & _ & Hbatch & Hiter & Hhits & _ & Hstart & _
        & Hbreak).
  unfold page_items. rewrite <- Hbatch, Hiter.
  split; [done |]. split; [done |].
  rewrite Hbreak. intros Hb Hnil.
  apply orb_false_iff in Hb as [_ Hb]. by apply bool_decide_eq_false in Hb.
Qed.

(** A response that raises whatever was accumulated ends the run. *)
Lemma run_fatal fuel σ hits start out σ' trace rq resp e :
  (∀ hits start,
     (payload ← decode resp; process_page show payload hits start) = Raise e) →
  run fuel σ hits start = (out, σ', trace) →
  (rq, resp) ∈ trace →
  out = Raised e ∧ last trace = Some (rq, resp).
Proof.
  intros Hfatal. revert σ hits start trace.
  induction fuel as [|fuel IH]; intros σ hits start trace Hrun Hin.
  { injection Hrun as <- <- <-. by apply elem_of_nil in Hin. }
  apply loop_step in Hrun as (resp' & σ1 & Hs & Hcases).
  destruct Hcases
    as [(e' & He & -> & -> & ->) | (payload & pg & -> & Hp & Hcases)].
  - apply list_elem_of_singleton in Hin as [= -> ->].
    rewrite Hfatal in He. by injection He as <-.
  - assert ((rq, resp) ≠ (ask start, Json payload)) as Hne.
    { intros [= -> ->]. specialize (Hfatal hits start).
      cbn [decode mbind res_bind] in Hfatal. by rewrite Hp in Hfatal. }
    destruct Hcases as [(_ & _ & _ & ->) | (_ & rest & Hrest & ->)].
    + by apply list_elem_of_singleton in Hin.
    + apply elem_of_cons in Hin as [Heq | Hin]; [done |].
      destruct (IH _ _ _ _ Hrest Hin) as [-> Hlast].
      split; [done | by apply last_cons_some].
Qed.

(** X1: a request that gets no response, a bad status or a body that is
    not JSON ends the run with the exception of [session.get],
    [raise_for_status] or [json], and no request follows it. *)
Theorem transport_failure_is_fatal fuel σ out σ' trace i rq resp e :
  fetch_exhibitors search fuel σ keyword page_size searchtype show
  = (out, σ', trace) →
  trace !! i = Some (rq, resp) →
  decode resp = Raise e →
  out = Raised e ∧ last trace = Some (rq, resp) ∧
  (e = RequestException ∨ (∃ status, e = HTTPError status)
   ∨ e = JSONDecodeError).
Proof.
  intros Hrun Hi He. apply list_elem_of_lookup_2 in Hi.
  destruct (run_fatal fuel σ [] 0 out σ' trace rq resp e) as [Hout Hlast];
    [by intros; rewrite He | done | done |].
  split; [done |]. split; [done |].
  destruct resp; simplify_eq/=; eauto.
Qed.

Lemma run_offsets fuel σ hits start out σ' trace i rq resp :
  run fuel σ hits start = (out, σ', trace) →
  trace !! i = Some (rq, resp) →
  rq = ask (start + Z.of_nat (length (trace_items show (take i trace)))).
Proof.
  revert σ hits start trace i.
  induction fuel as [|fuel IH]; intros σ hits start trace i Hrun Hi.
  { by injection Hrun as <- <- <-. }
  apply loop_step in Hrun as (resp' & σ1 & Hs & Hcases).
  assert (∀ rest, ((ask start, resp') :: rest) !! 0%nat = Some (rq, resp) →
                  rq = ask (start + Z.of_nat (length (trace_items show [])))) as Hfirst.
  { intros rest [= <- <-]. cbn. by rewrite Z.add_0_r. }
  destruct Hcases
    as [(e' & He & -> & -> & ->) | (payload & pg & -> & Hp & Hcases)].
  - destruct i; [by eapply Hfirst | done].
  - destruct Hcases as [(_ & _ & _ & ->) | (_ & rest & Hrest & ->)].
    + destruct i; [by eapply Hfirst | done].
    + destruct i as [|i]; [by eapply Hfirst |].
      cbn [lookup list_lookup] in Hi.
      rewrite (IH _ _ _ _ _ Hrest Hi).
      destruct (process_page_items _ _ _ _ Hp) as (_ & -> & _).
      unfold trace_items. cbn [take List.map concat snd].
      rewrite length_app. f_equal. lia.
Qed.

(** X2: every request of a run carries the keyword, the search type, the
    page size and the section of the call, and its offset is the number
    of records the responses before it held: 0 for the first, and each
    page moves it by the number of records received, not by the page
    size. *)
Theorem requests_follow_records fuel σ out σ' trace i rq resp :
  fetch_exhibitors search fuel σ keyword page_size searchtype show
  = (out, σ', trace) →
  trace !! i = Some (rq, resp) →
  rq = Request keyword searchtype page_size
         (Z.of_nat (length (trace_items show (take i trace)))) show.
Proof. intros Hrun Hi. by rewrite (run_offsets _ _ _ _ _ _ _ _ _ _ Hrun Hi). Qed.

Lemma run_returned_items fuel σ hits start hits' σ' trace :
  run fuel σ hits start = (Returned hits', σ', trace) →
  hits' = hits ++ trace_items show trace ∧
  (length trace ≤ length (trace_items show trace) + 1)%nat.
Proof.
  revert σ hits start trace.
  induction fuel as [|fuel IH]; intros σ hits start trace Hrun; [done |].
  apply loop_step in Hrun as (resp' & σ1 & Hs & Hcases).
  destruct Hcases
    as [(e' & _ & [=] & _) | (payload & pg & -> & Hp & Hcases)].
  destruct (process_page_items _ _ _ _ Hp) as (Hhits & _ & Hmore).
  unfold trace_items in *.
  destruct Hcases as [(_ & [= ->] & _ & ->) | (Hb & rest & Hrest & ->)].
  - cbn [List.map concat snd length]. rewrite app_nil_r. split; [done | lia].
  - destruct (IH _ _ _ _ Hrest) as [-> Hcount].
    cbn [List.map concat snd length]. rewrite Hhits, <- app_assoc.
    split; [done |]. rewrite length_app.
    specialize (Hmore Hb). destruct (page_items show (Json payload)); [done |].
    cbn [length]. lia.
Qed.

(** X3: the records a run returns are the records of its responses, page
    after page in the order received; nothing is dropped, merged or
    reordered. *)
Theorem fetched_is_concatenation fuel σ hits σ' trace :
  fetch_exhibitors search fuel σ keyword page_size searchtype show
  = (Returned hits, σ', trace) →
  hits = trace_items show trace.
Proof. intros Hrun. by apply run_returned_items in Hrun as [-> _]. Qed.

(** X4: every request of a run but the last brought at least one record:
    a run that returns n records has issued at most n + 1 requests. *)
Theorem requests_bounded_by_records fuel σ hits σ' trace :
  fetch_exhibitors search fuel σ keyword page_size searchtype show
  = (Returned hits, σ', trace) →
  (1 ≤ length trace ≤ length hits + 1)%nat.
Proof.
  intros Hrun. destruct (run_returned_items _ _ _ _ _ _ _ Hrun) as [-> Hle].
  split; [| done]. destruct trace; [| cbn; lia].
  by apply loop_no_request in Hrun.
Qed.

Lemma run_never_done fuel σ hits start :
  never_done search →
  ∃ σ' trace,
    run fuel σ hits start = (OutOfFuel, σ', trace) ∧ length trace = fuel.
Proof.
  intros Hserver. revert σ hits start.
  induction fuel as [|fuel IH]; intros σ hits start; [by exists σ, [] |].
  destruct (Hserver σ (ask start))
    as (payload & found & batch & Hresp & Hpage & Hne & Hlt).
  destruct (search σ (ask start)) as [resp σ1] eqn:Hs.
  simpl in Hresp, Hpage, Hlt. subst resp.
  pose proof (process_page_serves _ _ _ _ hits start Hpage) as Hp.
  rewrite (loop_continue search keyword searchtype show page_size fuel
             _ _ _ _ _ _ Hs Hp).
  - cbn [pg_hits pg_start].
    destruct (IH σ1 (hits ++ batch) (start + Z.of_nat (length batch)))
      as (σ' & trace & -> & Hlen).
    exists σ', ((ask start, Json payload) :: trace). cbn. by rewrite Hlen.
  - cbn. apply orb_false_iff. split; [apply Z.leb_gt; lia |].
    by apply bool_decide_eq_false.
Qed.

(** X5: the loop has no bound of its own. Against a server whose every
    page holds a record and reports a found count beyond the offset
    reached, a run never returns: whatever the number of iterations
    allowed, it has issued that many requests and is not done. *)
Theorem greedy_server_never_ends fuel σ :
  never_done search →
  ∃ σ' trace,
    fetch_exhibitors search fuel σ keyword page_size searchtype show
    = (OutOfFuel, σ', trace) ∧
    length trace = fuel.
Proof. apply run_never_done. Qed.

Lemma process_page_found_not_number payload hits start :
  found_not_number show payload →
  process_page show payload hits start = Raise TypeError.
Proof.
  intros (Hok & (r & Hr) & v & Hfound & Hv).
  destruct (result_section_dict _ _ _ Hr) as (kvs & ->).
  unfold process_page, reported_found, search_failed in *.
  rewrite Hr in *. cbn [py_get mbind res_bind].
  apply negb_false_iff in Hok. rewrite Hok, Hfound. cbn [negb default].
  destruct (py_iter _) as [items|e] eqn:Hiter.
  - cbn [mbind res_bind]. rewrite (py_iter_len _ _ Hiter).
    cbn [mbind res_bind]. by destruct v.
  - cbn [mbind res_bind]. revert Hiter.
    generalize (default (JList []) (assoc (py "hit") r)).
    intros []; simpl; congruence.
Qed.

(** X6: a found count that is present but not a number (null, a string,
    a list, an object) is not replaced by the default: the comparison
    with the offset raises [TypeError], which ends the run. *)
Theorem found_not_number_is_fatal fuel σ out σ' trace i rq payload :
  fetch_exhibitors search fuel σ keyword page_size searchtype show
  = (out, σ', trace) →
  trace !! i = Some (rq, Json payload) →
  found_not_number show payload →
  out = Raised TypeError ∧ last trace = Some (rq, Json payload).
Proof.
  intros Hrun Hi Hfound. apply list_elem_of_lookup_2 in Hi.
  apply (run_fatal fuel σ [] 0 out σ' trace rq (Json payload) TypeError);
    [| done | done].
  intros hits start. cbn [decode mbind res_bind].
  by apply process_page_found_not_number.
Qed.

(** X7: a response that is valid JSON but not an object (a list, a
    string, a number, null) has no [get]: the run ends with
    [AttributeError], not with the error of a failed search. *)
Theorem payload_not_object_is_fatal fuel σ out σ' trace i rq payload :
  fetch_exhibitors search fuel σ keyword page_size searchtype show
  = (out, σ', trace) →
  trace !! i = Some (rq, Json payload) →
  is_object payload = false →
  out = Raised AttributeError ∧ last trace = Some (rq, Json payload).
Proof.
  intros Hrun Hi Hobj. apply list_elem_of_lookup_2 in Hi.
  apply (run_fatal fuel σ [] 0 out σ' trace rq (Json payload) AttributeError);
    [| done | done].
  intros hits start. by destruct payload.
Qed.
End Traces.

(** * Further properties of the flattener *)

(** Membership of a literal in a list of literals. *)
Ltac in_keys :=
  unfold list_fields, scalar_fields, scalar_columns;
  repeat first [ apply list_elem_of_here | apply list_elem_of_further ].

(** X8: for every record, the hall column is the ["; "]-join of the
    [hallid_la] entries as they are (no cleanup, the marker included),
    and each of the nine single-valued columns is the string of its
    source field. *)
Theorem columns_copied hit :
  is_record hit = true →
  ∃ row,
    hit_to_row hit = Ok row ∧
    assoc (py "hall") row
    = Some (JStr (join (py "; ") (list_field hit (py "hallid_la")))) ∧
    (∀ column src,
       (column, src) ∈ scalar_columns →
       assoc column row = Some (JStr (scalar_field hit src))).
Proof.
  intros Hrec. exists (row_of hit).
  split; [by apply hit_to_row_record |]. split; [reflexivity |].
  intros column src Hcol. unfold scalar_columns in Hcol.
  repeat (apply elem_of_cons in Hcol as [[= -> ->] | Hcol]);
    [ .. | by apply elem_of_nil in Hcol ];
    reflexivity.
Qed.

Lemma has_fields_inv hit :
  has_fields hit = true →
  ∃ kvs fs,
    hit = JDict kvs ∧
    default (JDict []) (assoc (py "fields") kvs) = JDict fs ∧
    ∀ k, field hit k = assoc k fs.
Proof.
  destruct hit as [| | | | | |kvs]; try done. unfold has_fields, field.
  destruct (assoc (py "fields") kvs) as [fields|] eqn:Hfields.
  - destruct fields as [| | | | | |fs]; try done. intros _.
    exists kvs, fs. by rewrite Hfields.
  - intros _. exists kvs, []. by rewrite Hfields.
Qed.

Lemma py_or_truthy o other :
  py_or (default JNull o) other
  = default other (v ← o; if truthy v then Some v else None).
Proof.
  destruct o as [v|]; [| done]. unfold py_or. simpl. by destruct (truthy v).
Qed.

(** X9: the row depends on the hit only through the nine single-valued
    source fields and the truthy values of the four list-valued ones:
    other keys of the hit or of its field mapping, and list-valued
    fields that are null or empty rather than absent, make no
    difference, to the row or to the exception. *)
Theorem hit_to_row_reads_sources hit hit' :
  has_fields hit = true →
  has_fields hit' = true →
  (∀ k, k ∈ scalar_fields → field hit k = field hit' k) →
  (∀ k, k ∈ list_fields → truthy_field hit k = truthy_field hit' k) →
  hit_to_row hit = hit_to_row hit'.
Proof.
  intros Hhit Hhit' Hscalar Hlist.
  apply has_fields_inv in Hhit as (kvs & fs & -> & Hfs & Hfield).
  apply has_fields_inv in Hhit' as (kvs' & fs' & -> & Hfs' & Hfield').
  unfold truthy_field in Hlist.
  pose proof (Hlist (py "boothsdisplay_la") ltac:(in_keys)) as Hbooths.
  pose proof (Hlist (py "hallid_la") ltac:(in_keys)) as Hhalls.
  pose proof (Hlist (py "exhtags_la") ltac:(in_keys)) as Htags.
  pose proof (Hlist (py "tags") ltac:(in_keys)) as Htags'.
  pose proof (Hscalar (py "exhid_l") ltac:(in_keys)) as H1.
  pose proof (Hscalar (py "exhname_t") ltac:(in_keys)) as H2.
  pose proof (Hscalar (py "exhdesc_t") ltac:(in_keys)) as H3.
  pose proof (Hscalar (py "seekfunding_t") ltac:(in_keys)) as H4.
  pose proof (Hscalar (py "fundingamount_t") ltac:(in_keys)) as H5.
  pose proof (Hscalar (py "investmentstage_l") ltac:(in_keys)) as H6.
  pose proof (Hscalar (py "revenue_t") ltac:(in_keys)) as H7.
  pose proof (Hscalar (py "exhlogo_t") ltac:(in_keys)) as H8.
  pose proof (Hscalar (py "exhfeatured_t") ltac:(in_keys)) as H9.
  clear Hscalar Hlist. rewrite !Hfield, !Hfield' in *.
  unfold hit_to_row. cbn [py_get mbind res_bind]. rewrite Hfs, Hfs'.
  cbn [py_get mbind res_bind]. rewrite !py_or_truthy.
  by rewrite Hbooths, Hhalls, Htags, Htags', H1, H2, H3, H4, H5, H6, H7, H8, H9.
Qed.

(** X10: a hit that is not an object, or whose [fields] value is present
    but not an object (null included: only a missing key takes the
    default), makes [hit_to_row] raise [AttributeError]. *)
Theorem hit_without_fields_raises hit :
  has_fields hit = false → hit_to_row hit = Raise AttributeError.
Proof.
  destruct hit as [| | | | | |kvs]; try done.
  unfold has_fields, hit_to_row. cbn [py_get mbind res_bind].
  destruct (assoc (py "fields") kvs) as [fields|]; [| done].
  by destruct fields.
Qed.

(** * Further properties of the writer and of the program *)

Lemma bind_ok {A B} (m : res A) (f : A → res B) b :
  m ≫= f = Ok b → ∃ a, m = Ok a ∧ f a = Ok b.
Proof. destruct m as [a|e]; [| done]. intros Hf. by exists a. Qed.

(** Whatever the hit, a row has the twelve keys of the header. *)
Lemma hit_to_row_keys hit row :
  hit_to_row hit = Ok row → List.map fst row = fieldnames.
Proof.
  unfold hit_to_row. intros H.
  repeat (apply bind_ok in H as (? & _ & H); cbv beta zeta in H).
  by injection H as <-.
Qed.

Lemma dict_to_list_row row :
  List.map fst row = fieldnames → dict_to_list row = Ok (cells_of row).
Proof.
  unfold fieldnames. intros Hkeys.
  do 12 (destruct row as [|[? ?] row]; [done |];
         injection Hkeys as -> Hkeys).
  destruct row; [| done]. reflexivity.
Qed.

Lemma traverse_length {A B} (f : A → res B) l l' :
  traverse f l = Ok l' → length l' = length l.
Proof.
  revert l'. induction l as [|a l IH]; intros l'; simpl; [by intros [= <-] |].
  intros H. apply bind_ok in H as (b & _ & H).
  apply bind_ok in H as (bs & Hbs & [= <-]). simpl. by rewrite (IH bs).
Qed.

Lemma writerows_flattened hits rows :
  traverse hit_to_row hits = Ok rows →
  writerows rows = (Ok (), List.map cells_of rows).
Proof.
  revert rows. induction hits as [|hit hits IH]; intros rows; simpl.
  { by intros [= <-]. }
  intros H. apply bind_ok in H as (row & Hrow & H).
  apply bind_ok in H as (rest & Hrest & [= <-]).
  cbn [writerows List.map].
  rewrite (dict_to_list_row row) by (by eapply hit_to_row_keys).
  by rewrite (IH rest).
Qed.

Section Writing.
Context {St : Type}.
Variable home : St → bool * St.
Variable search : St → request → http_outcome * St.
Variable writable : pystr → bool.

Lemma write_csv_flattened hits rows output_path files :
  traverse hit_to_row hits = Ok rows →
  write_csv writable rows output_path files
  = (if writable output_path
     then (Ok (),
           <[output_path := CsvFile fieldnames (List.map cells_of rows)]> files)
     else (Raise OSError, files)).
Proof.
  intros Hrows. unfold write_csv. by rewrite (writerows_flattened _ _ Hrows).
Qed.

(** X11: the rows [hit_to_row] makes are rows [write_csv] accepts,
    whatever the hits: when the path can be opened the file is replaced
    by the header and one line of twelve cells per row, in order, and
    nothing is refused; when it cannot, [OSError] is raised and no file
    changes. *)
Theorem flattened_rows_are_written hits rows output_path files :
  traverse hit_to_row hits = Ok rows →
  write_csv writable rows output_path files
  = (if writable output_path
     then (Ok (),
           <[output_path := CsvFile fieldnames (List.map cells_of rows)]> files)
     else (Raise OSError, files)) ∧
  length rows = length hits ∧
  Forall (λ cells, length cells = 12%nat) (List.map cells_of rows).
Proof.
  intros Hrows. split; [by apply (write_csv_flattened hits) |].
  split; [by eapply traverse_length |].
  clear output_path files. revert rows Hrows.
  induction hits as [|hit hits IH]; intros rows; simpl.
  { intros [= <-]. constructor. }
  intros H. apply bind_ok in H as (row & Hrow & H).
  apply bind_ok in H as (rest & Hrest & [= <-]).
  cbn [List.map]. constructor; [| by apply IH].
  unfold cells_of. rewrite length_map.
  rewrite <- (length_map fst), (hit_to_row_keys _ _ Hrow). done.
Qed.

(** X12: [main] writes all or nothing. When it ends with an exception
    (or does not end), the files are as they were; when it returns, it
    has replaced the one file at the output path by the header and one
    line per record fetched, and has printed their number. *)
Theorem main_writes_all_or_nothing fuel args (w : world St) out w' :
  main home search writable fuel args w = (out, w') →
  (out ≠ Returned () → w_files w' = w_files w) ∧
  (out = Returned () →
   ∃ keyword σ hits σ' trace rows,
     fetch_exhibitors search fuel σ keyword (ns_page_size args) (py "keyword")
       (ns_show args) = (Returned hits, σ', trace) ∧
     traverse hit_to_row hits = Ok rows ∧
     w_files w'
     = <[output_path_of args keyword
         := CsvFile fieldnames (List.map cells_of rows)]> (w_files w) ∧
     last (w_stdout w')
     = Some (Wrote (length hits) (output_path_of args keyword))).
Proof.
  unfold main.
  destruct (read_keyword args w) as [[keyword|e] w1] eqn:Hk;
    apply read_keyword_world in Hk as (_ & Hfiles & _);
    [| by intros [= <- <-] ].
  destruct keyword as [|c keyword]; [by intros [= <- <-] |].
  destruct (bootstrap_session home (w_server w1)) as [[[]|e] σ];
    [| by intros [= <- <-] ].
  cbn [w_files w_requests w_stdin w_stdout w_server].
  destruct (fetch_exhibitors _ _ _ _ _ _ _) as [[fetched σ'] trace] eqn:Hf.
  destruct fetched as [hits|e|]; [| by intros [= <- <-] ..].
  cbn [w_files w_requests w_stdin w_stdout w_server].
  destruct (traverse hit_to_row hits) as [rows|e] eqn:Hrows;
    [| by intros [= <- <-] ].
  rewrite (write_csv_flattened hits rows _ _ Hrows).
  pose proof (traverse_length _ _ _ Hrows) as Hlen.
  destruct (writable _); intros [= <- <-]; cbn; [| done].
  split; [done |]. intros _.
  exists (c :: keyword), σ, hits, σ', trace, rows.
  rewrite Hfiles, Hlen, last_snoc. done.
Qed.

(** X13: end to end. With a keyword on the command line, a site that
    answers the priming request, a well-behaved server holding N records
    of the data model, a positive page size and an output path that can
    be opened, [main] returns: the output file holds the header and the
    flattened row of each of the N records, in the order of the server,
    the number N is printed, and max(1, ceil(N / page_size)) search
    requests were issued. *)
Theorem main_well_behaved records fuel args (w : world St) c keyword :
  ns_keyword args = Some (c :: keyword) →
  (∀ σ, (home σ).1 = true) →
  well_behaved search records →
  forallb is_record records = true →
  0 < ns_page_size args →
  Z.max 1 (ceil_div (Z.of_nat (length records)) (ns_page_size args))
    ≤ Z.of_nat fuel →
  writable (output_path_of args (c :: keyword)) = true →
  ∃ w',
    main home search writable fuel args w = (Returned (), w') ∧
    w_files w'
    = <[output_path_of args (c :: keyword)
        := CsvFile fieldnames (List.map (λ r, cells_of (row_of r)) records)]>
        (w_files w) ∧
    w_stdout w'
    = w_stdout w
      ++ [Wrote (length records) (output_path_of args (c :: keyword))] ∧
    Z.of_nat (length (w_requests w'))
    = Z.of_nat (length (w_requests w))
      + Z.max 1 (ceil_div (Z.of_nat (length records)) (ns_page_size args)).
Proof.
  intros Hkey Hhome Hserver Hrecords Hsize Hfuel Hpath.
  unfold main, read_keyword. rewrite Hkey.
  unfold bootstrap_session. specialize (Hhome (w_server w)).
  destruct (home (w_server w)) as [answered σ]. simpl in Hhome. subst answered.
  cbn [w_files w_requests w_stdin w_stdout w_server].
  destruct (loop_well_behaved search (c :: keyword) (py "keyword")
              (ns_show args) (ns_page_size args) records fuel σ 0
              Hserver Hsize) as (σ' & trace & Hrun & Htrace);
    [lia | by rewrite Nat.sub_0_r |].
  rewrite Nat.sub_0_r in Htrace.
  change (take 0 records) with (@nil value) in Hrun.
  change (Z.of_nat 0) with 0 in Hrun.
  unfold fetch_exhibitors. rewrite Hrun.
  cbn [w_files w_requests w_stdin w_stdout w_server].
  assert (traverse hit_to_row records = Ok (List.map row_of records)) as Hrows.
  { clear -Hrecords. induction records as [|r records IH]; [done |].
    cbn [forallb] in Hrecords. apply andb_prop in Hrecords as [Hr Hrest].
    cbn [traverse List.map]. rewrite (hit_to_row_record r Hr), (IH Hrest).
    done. }
  rewrite Hrows.
  rewrite (write_csv_flattened records _ _ _ Hrows), Hpath. eexists. split; [done |]. cbn.
  rewrite length_map, map_map, length_app. split; [done |]. split; [done |].
  lia.
Qed.

(** X14: without a keyword on the command line [main] prompts for one,
    and a blank answer ends it with [SystemExit], an exhausted input
    with [EOFError]; in both cases before the site is contacted: the
    server is in the state it was in, no request was issued and no file
    was written. *)
Theorem blank_keyword_stops_before_network fuel args (w : world St) :
  ns_keyword args = None ∨ ns_keyword args = Some [] →
  (∀ line rest,
     w_stdin w = line :: rest →
     strip line = [] →
     main home search writable fuel args w
     = (Raised (SystemExit (py "Keyword is required.")),
        World (w_server w) (w_files w) rest (w_stdout w ++ [Prompt])
          (w_requests w))) ∧
  (w_stdin w = [] →
   main home search writable fuel args w
   = (Raised EOFError,
      World (w_server w) (w_files w) [] (w_stdout w ++ [Prompt])
        (w_requests w))).
Proof.
  intros Hkey. unfold main, read_keyword.
  split.
  - intros line rest -> ->. by destruct Hkey as [-> | ->].
  - intros ->. by destruct Hkey as [-> | ->].
Qed.
End Writing.

(** * The further properties on sample runs *)

Lemma transport_failure_is_fatal_witness :
  (fetch_exhibitors scripted_server 5 dropped_script (py "ai") 2
     (py "keyword") exhibitor).1.1
  = Raised (HTTPError 503) ∧
  last (fetch_exhibitors scripted_server 5 dropped_script (py "ai") 2
          (py "keyword") exhibitor).2
  = Some (sample_request 2, BadStatus 503).
Proof.
  set (r := fetch_exhibitors scripted_server 5 dropped_script (py "ai") 2
              (py "keyword") exhibitor).
  destruct (transport_failure_is_fatal scripted_server (py "ai") (py "keyword")
              exhibitor 2 5 dropped_script r.1.1 r.1.2 r.2 1
              (sample_request 2) (BadStatus 503) (HTTPError 503)
              eq_refl eq_refl eq_refl) as (Hout & Hlast & _).
  split; [exact Hout | exact Hlast].
Defined.

Lemma requests_follow_records_witness :
  (fetch_exhibitors (honest_server three_records) 5 () (py "ai") 2
     (py "keyword") exhibitor).2 !! 1%nat
  = Some (sample_request 2,
          Json (page_payload exhibitor (JInt 3) (JList (drop 2 three_records))))
  ∧ sample_request 2
    = Request (py "ai") (py "keyword") 2
        (Z.of_nat
           (length
              (trace_items exhibitor
                 (take 1
                    (fetch_exhibitors (honest_server three_records) 5 ()
                       (py "ai") 2 (py "keyword") exhibitor).2))))
        exhibitor.
Proof.
  split; [reflexivity |].
  set (r := fetch_exhibitors (honest_server three_records) 5 () (py "ai") 2
              (py "keyword") exhibitor).
  exact (requests_follow_records (honest_server three_records) (py "ai")
           (py "keyword") exhibitor 2 5 () r.1.1 r.1.2 r.2 1
           (sample_request 2)
           (Json (page_payload exhibitor (JInt 3)
                    (JList (drop 2 three_records))))
           eq_refl eq_refl).
Defined.

Lemma fetched_is_concatenation_witness :
  three_records
  = trace_items exhibitor
      (fetch_exhibitors (honest_server three_records) 5 () (py "ai") 2
         (py "keyword") exhibitor).2.
Proof.
  set (r := fetch_exhibitors (honest_server three_records) 5 () (py "ai") 2
              (py "keyword") exhibitor).
  exact (fetched_is_concatenation (honest_server three_records) (py "ai")
           (py "keyword") exhibitor 2 5 () three_records r.1.2 r.2 eq_refl).
Defined.

Lemma requests_bounded_by_records_witness :
  (1 ≤ length (fetch_exhibitors (honest_server three_records) 5 () (py "ai") 2
                 (py "keyword") exhibitor).2
   ≤ length three_records + 1)%nat.
Proof.
  set (r := fetch_exhibitors (honest_server three_records) 5 () (py "ai") 2
              (py "keyword") exhibitor).
  exact (requests_bounded_by_records (honest_server three_records) (py "ai")
           (py "keyword") exhibitor 2 5 () three_records r.1.2 r.2 eq_refl).
Defined.

Lemma greedy_server_never_done : never_done greedy_server.
Proof.
  intros σ rq. eexists _, _, [JNull]. split; [done |].
  split; [apply page_payload_serves |]. split; [done | simpl; lia].
Qed.

Lemma greedy_server_never_ends_witness :
  never_done greedy_server ∧
  ∃ σ' trace,
    fetch_exhibitors greedy_server 7 () (py "ai") 2 (py "keyword") exhibitor
    = (OutOfFuel, σ', trace) ∧
    length trace = 7%nat.
Proof.
  split; [apply greedy_server_never_done |].
  exact (greedy_server_never_ends greedy_server (py "ai") (py "keyword")
           exhibitor 2 7 () greedy_server_never_done).
Defined.

Lemma found_not_number_is_fatal_witness :
  (fetch_exhibitors (constant_server (Json null_found_payload)) 5 () (py "ai")
     2 (py "keyword") exhibitor).1.1
  = Raised TypeError ∧
  last (fetch_exhibitors (constant_server (Json null_found_payload)) 5 ()
          (py "ai") 2 (py "keyword") exhibitor).2
  = Some (sample_request 0, Json null_found_payload).
Proof.
  set (r := fetch_exhibitors (constant_server (Json null_found_payload)) 5 ()
              (py "ai") 2 (py "keyword") exhibitor).
  assert (found_not_number exhibitor null_found_payload) as Hfound.
  { split; [reflexivity |]. split; [eexists; reflexivity |].
    exists JNull. split; reflexivity. }
  exact (found_not_number_is_fatal (constant_server (Json null_found_payload))
           (py "ai") (py "keyword") exhibitor 2 5 () r.1.1 r.1.2 r.2 0
           (sample_request 0) null_found_payload eq_refl eq_refl Hfound).
Defined.

Lemma payload_not_object_is_fatal_witness :
  (fetch_exhibitors (constant_server (Json (JList []))) 5 () (py "ai") 2
     (py "keyword") exhibitor).1.1
  = Raised AttributeError ∧
  last (fetch_exhibitors (constant_server (Json (JList []))) 5 () (py "ai") 2
          (py "keyword") exhibitor).2
  = Some (sample_request 0, Json (JList [])).
Proof.
  set (r := fetch_exhibitors (constant_server (Json (JList []))) 5 ()
              (py "ai") 2 (py "keyword") exhibitor).
  exact (payload_not_object_is_fatal (constant_server (Json (JList [])))
           (py "ai") (py "keyword") exhibitor 2 5 () r.1.1 r.1.2 r.2 0
           (sample_request 0) (JList []) eq_refl eq_refl eq_refl).
Defined.

Lemma columns_copied_witness :
  ∃ row,
    hit_to_row sample_hit = Ok row ∧
    assoc (py "hall") row
    = Some (JStr (join (py "; ") (list_field sample_hit (py "hallid_la")))) ∧
    (∀ column src,
       (column, src) ∈ scalar_columns →
       assoc column row = Some (JStr (scalar_field sample_hit src))).
Proof. exact (columns_copied sample_hit eq_refl). Defined.

Lemma hit_to_row_reads_sources_witness :
  hit_to_row sample_hit_padded = hit_to_row sample_hit.
Proof.
  apply hit_to_row_reads_sources; [reflexivity | reflexivity | |];
    intros k Hk; unfold scalar_fields, list_fields in Hk;
    repeat (apply elem_of_cons in Hk as [-> | Hk]);
    solve [ reflexivity | by apply elem_of_nil in Hk ].
Defined.

Lemma hit_without_fields_raises_witness :
  hit_to_row (JDict [ (py "fields", JNull) ]) = Raise AttributeError ∧
  hit_to_row (JList []) = Raise AttributeError.
Proof.
  split.
  - exact (hit_without_fields_raises (JDict [ (py "fields", JNull) ]) eq_refl).
  - exact (hit_without_fields_raises (JList []) eq_refl).
Defined.

Lemma flattened_rows_are_written_witness :
  write_csv any_path (List.map row_of three_records) (py "out.csv") ∅
  = (Ok (),
     <[py "out.csv"
       := CsvFile fieldnames
            (List.map cells_of (List.map row_of three_records))]> ∅) ∧
  length (List.map row_of three_records) = length three_records ∧
  Forall (λ cells, length cells = 12%nat)
    (List.map cells_of (List.map row_of three_records)).
Proof.
  exact (flattened_rows_are_written any_path three_records
           (List.map row_of three_records) (py "out.csv") ∅ eq_refl).
Defined.

Lemma main_writes_all_or_nothing_witness :
  w_files (main always_home scripted_server any_path 5 sample_args
             (fresh_world dropped_script)).2
  = ∅ ∧
  ∃ keyword σ hits σ' trace rows,
    fetch_exhibitors (honest_server three_records) 5 σ keyword 2
      (py "keyword") exhibitor
    = (Returned hits, σ', trace) ∧
    traverse hit_to_row hits = Ok rows ∧
    w_files (main always_home (honest_server three_records) any_path 5
               sample_args (fresh_world ())).2
    = <[output_path_of sample_args keyword
        := CsvFile fieldnames (List.map cells_of rows)]> ∅ ∧
    last (w_stdout (main always_home (honest_server three_records) any_path 5
                      sample_args (fresh_world ())).2)
    = Some (Wrote (length hits) (output_path_of sample_args keyword)).
Proof.
  set (failed := main always_home scripted_server any_path 5 sample_args
                   (fresh_world dropped_script)).
  set (whole := main always_home (honest_server three_records) any_path 5
                 sample_args (fresh_world ())).
  split.
  - apply (main_writes_all_or_nothing always_home scripted_server any_path 5
             sample_args (fresh_world dropped_script) failed.1 failed.2
             eq_refl).
    discriminate.
  - apply (main_writes_all_or_nothing always_home
             (honest_server three_records) any_path 5 sample_args
             (fresh_world ()) whole.1 whole.2 eq_refl).
    reflexivity.
Defined.

Lemma main_well_behaved_witness :
  ∃ w',
    main always_home (honest_server three_records) any_path 5 sample_args
      (fresh_world ())
    = (Returned (), w') ∧
    w_files w'
    = <[py "exhibitors_ai.csv"
        := CsvFile fieldnames
             (List.map (λ r, cells_of (row_of r)) three_records)]> ∅ ∧
    w_stdout w' = [] ++ [Wrote 3 (py "exhibitors_ai.csv")] ∧
    Z.of_nat (length (w_requests w')) = 0 + Z.max 1 (ceil_div 3 2).
Proof.
  apply (main_well_behaved always_home (honest_server three_records) any_path
           three_records 5 sample_args (fresh_world ()) _ _ eq_refl).
  - reflexivity.
  - apply honest_server_well_behaved.
  - reflexivity.
  - reflexivity.
  - by vm_compute.
  - reflexivity.
Defined.

Lemma blank_keyword_stops_before_network_witness :
  main always_home scripted_server any_path 5 prompting_args
    (World dropped_script ∅ [py "   "; py "ai"] [] [])
  = (Raised (SystemExit (py "Keyword is required.")),
     World dropped_script ∅ [py "ai"] [Prompt] []) ∧
  main always_home scripted_server any_path 5 prompting_args
    (fresh_world dropped_script)
  = (Raised EOFError, World dropped_script ∅ [] [Prompt] []).
Proof.
  split.
  - exact (proj1 (blank_keyword_stops_before_network always_home
                    scripted_server any_path 5 prompting_args
                    (World dropped_script ∅ [py "   "; py "ai"] [] [])
                    (or_introl eq_refl))
             (py "   ") [py "ai"] eq_refl eq_refl).
  - exact (proj2 (blank_keyword_stops_before_network always_home
                    scripted_server any_path 5 prompting_args
                    (fresh_world dropped_script) (or_introl eq_refl))
             eq_refl).
Defined.
